(** * SUVIClient (sunpy.net.dataretriever.sources.goes): a shallow embedding

    The development follows [src/sunpy/net/dataretriever/sources/goes.py]:
    the record normalizer [post_search_hook], the branch selection and the
    fan-out loops of [search].  Python exceptions are values of [exn] carried
    by [Result]; dictionaries keyed by strings are [gmap string _]; the
    [OrderedDict] of a metadata record is an association list kept in
    insertion order; floats are the rationals they denote. *)

From stdpp Require Import base strings list gmap pretty numbers.
From Stdlib Require Import Ascii ZArith QArith Lia.

Local Open Scope string_scope.
Local Open Scope Z_scope.

(** ** Exceptions and the error monad *)

Inductive exn : Type :=
| KeyError (key : string)
| IndexError
| TypeError
| ValueError (msg : string)
| UnitConversionError
| ListingError (msg : string).

Inductive Result (A : Type) : Type :=
| Ok (a : A)
| Raise (e : exn).
Arguments Ok {A} a.
Arguments Raise {A} e.

Definition bindR {A B : Type} (m : Result A) (k : A → Result B) : Result B :=
  match m with
  | Ok a => k a
  | Raise e => Raise e
  end.

Notation "'try' x := m 'in' k" := (bindR m (fun x => k))
  (at level 10, x name, m at level 100, k at level 200).

(** ** datetime *)

Record datetime : Type := mk_datetime {
  dt_year : Z; dt_month : Z; dt_day : Z;
  dt_hour : Z; dt_minute : Z; dt_second : Z
}.

Definition is_leap (y : Z) : bool :=
  (y mod 4 =? 0) && (negb (y mod 100 =? 0) || (y mod 400 =? 0)).

Definition days_in_month (y m : Z) : Z :=
  if m =? 2 then (if is_leap y then 29 else 28)
  else if (m =? 4) || (m =? 6) || (m =? 9) || (m =? 11) then 30
  else 31.

(** The constructor [datetime(year, month, day, hour, minute, second)] on
    integer arguments: the date fields are checked first, then the time
    fields; a field out of range raises [ValueError]. *)
Definition datetime_of_ints (y mo d h mi s : Z) : Result datetime :=
  if negb ((1 <=? y) && (y <=? 9999)) then Raise (ValueError "year is out of range")
  else if negb ((1 <=? mo) && (mo <=? 12)) then Raise (ValueError "month must be in 1..12")
  else if negb ((1 <=? d) && (d <=? days_in_month y mo)) then
    Raise (ValueError "day is out of range for month")
  else if negb ((0 <=? h) && (h <=? 23)) then Raise (ValueError "hour must be in 0..23")
  else if negb ((0 <=? mi) && (mi <=? 59)) then Raise (ValueError "minute must be in 0..59")
  else if negb ((0 <=? s) && (s <=? 59)) then Raise (ValueError "second must be in 0..59")
  else Ok (mk_datetime y mo d h mi s).

(** ** Values of a raw match

    A raw match is the dictionary of named fields the filename grammar
    captured, each already coerced to its declared type. *)

Inductive pval : Type :=
| PInt (n : Z)
| PStr (s : string).

Abbreviation RawMatch := (gmap string pval).

(** [i[key]] *)
Definition getitem (i : RawMatch) (key : string) : Result pval :=
  match i !! key with
  | Some v => Ok v
  | None => Raise (KeyError key)
  end.

Definition as_int (v : pval) : Result Z :=
  match v with
  | PInt n => Ok n
  | PStr _ => Raise TypeError
  end.

(** [datetime(a, b, c, d, e, f)] on values taken from a raw match: a
    non-integer argument is a [TypeError], raised before any range check. *)
Definition datetime_new (a b c d e f : pval) : Result datetime :=
  try y := as_int a in
  try mo := as_int b in
  try dd := as_int c in
  try h := as_int d in
  try mi := as_int e in
  try s := as_int f in
  datetime_of_ints y mo dd h mi s.

(** ** Physical quantities and the wavelength attribute *)

Inductive Unit : Type :=
| Angstrom
| UnitNamed (name : string).

Record Quantity : Type := mk_quantity { q_value : Q; q_unit : Unit }.

(** [n * u.Angstrom] for an integer [n]. *)
Definition angstroms (n : Z) : Quantity := mk_quantity (inject_Z n) Angstrom.

(** [int(x)] on a float: truncation towards zero. *)
Definition int_of_float (x : Q) : Z := Z.quot (Qnum x) (Z.pos (Qden x)).

Record WavelengthAttr : Type := mk_wavelength { wl_min : Quantity; wl_max : Quantity }.

(** Modelled from the spec: the [a.Wavelength] range attribute, defined in
    sunpy.net.attrs and only imported by this module, "an inclusive numeric
    range".  The range lies between its two endpoints, which the
    constructor stores in ascending order; both are in the same unit where
    the client builds one. *)
Definition Wavelength (wavemin wavemax : Quantity) : WavelengthAttr :=
  if Qle_bool (q_value wavemin) (q_value wavemax)
  then mk_wavelength wavemin wavemax
  else mk_wavelength wavemax wavemin.

(** Modelled from the spec: the containment test [wave in req_wave] of
    [a.Wavelength], "is this supported discrete value inside the requested
    range", both bounds included. *)
Definition wavelength_contains (r : WavelengthAttr) (wave : Quantity) : bool :=
  Qle_bool (q_value (wl_min r)) (q_value wave) &&
  Qle_bool (q_value wave) (q_value (wl_max r)).

(** ** Time ranges and the query's match dictionary *)

(** Modelled from the spec: [TimeRange], defined in sunpy.time and only
    imported by this module, the pair of a start and an end instant. *)
Record TimeRange : Type := mk_timerange { tr_start : datetime; tr_end : datetime }.

(** The dictionary [matchdict] built by [_get_match_dict]: every key the
    client reads, each possibly absent. *)
Record MatchDict : Type := mk_matchdict {
  md_Time : option TimeRange;
  md_Wavelength : option WavelengthAttr;
  md_SatelliteNumber : option (list Z);
  md_Level : option (list string);
  md_Instrument : option (list string);
  md_Physobs : option (list string);
  md_Source : option (list string);
  md_Provider : option (list string)
}.

(** [matchdict[key][0]] *)
Definition first_of (key : string) (entry : option (list string)) : Result string :=
  match entry with
  | None => Raise (KeyError key)
  | Some [] => Raise IndexError
  | Some (x :: _) => Ok x
  end.

(** ** Metadata records: an [OrderedDict] *)

Inductive rval : Type :=
| RTime (t : TimeRange)
| RStr (s : string)
| RField (v : pval)
| RQuantity (q : Quantity).

Abbreviation Record_ := (list (string * rval)).

(** [map_[key] = v]: an existing key keeps its position, a new key goes
    last. *)
Fixpoint odict_set (key : string) (v : rval) (d : Record_) : Record_ :=
  match d with
  | [] => [(key, v)]
  | (k, w) :: d' =>
      if decide (k = key) then (key, v) :: d' else (k, w) :: odict_set key v d'
  end.

Fixpoint odict_get (key : string) (d : Record_) : option rval :=
  match d with
  | [] => None
  | (k, w) :: d' => if decide (k = key) then Some w else odict_get key d'
  end.

Definition odict_keys (d : Record_) : list string := d.*1.

(** [i['Wavelength'] * u.Angstrom] *)
Definition times_angstrom (v : pval) : Result Quantity :=
  match v with
  | PInt n => Ok (angstroms n)
  | PStr _ => Raise TypeError
  end.

Section Normalizer.

(** [TIME_FORMAT] comes from the configuration and [strftime] from the
    standard library; both are taken as given. *)
Variable TIME_FORMAT : string.
Variable strftime : datetime → string → string.

Definition post_search_hook (i : RawMatch) (matchdict : MatchDict) : Result Record_ :=
  (* extracting start times and end times *)
  try a1 := getitem i "year" in
  try a2 := getitem i "month" in
  try a3 := getitem i "day" in
  try a4 := getitem i "hour" in
  try a5 := getitem i "minute" in
  try a6 := getitem i "second" in
  try start := datetime_new a1 a2 a3 a4 a5 a6 in
  try b1 := getitem i "year" in
  try b2 := getitem i "month" in
  try b3 := getitem i "day" in
  try b4 := getitem i "ehour" in
  try b5 := getitem i "eminute" in
  try b6 := getitem i "esecond" in
  try end_ := datetime_new b1 b2 b3 b4 b5 b6 in
  let timerange := mk_timerange start end_ in
  let map_ : Record_ := [] in
  let map_ := odict_set "Time" (RTime timerange) map_ in
  let map_ := odict_set "Start Time" (RStr (strftime start TIME_FORMAT)) map_ in
  let map_ := odict_set "End Time" (RStr (strftime end_ TIME_FORMAT)) map_ in
  try instrument := first_of "Instrument" (md_Instrument matchdict) in
  let map_ := odict_set "Instrument" (RStr instrument) map_ in
  try physobs := first_of "Physobs" (md_Physobs matchdict) in
  let map_ := odict_set "Phsyobs" (RStr physobs) map_ in
  try source := first_of "Source" (md_Source matchdict) in
  let map_ := odict_set "Source" (RStr source) map_ in
  try provider := first_of "Provider" (md_Provider matchdict) in
  let map_ := odict_set "Provider" (RStr provider) map_ in
  try satno := getitem i "SatelliteNumber" in
  let map_ := odict_set "SatelliteNumber" (RField satno) map_ in
  try level := getitem i "Level" in
  let map_ := odict_set "Level" (RField level) map_ in
  try w := getitem i "Wavelength" in
  try wavelength := times_angstrom w in
  let map_ := odict_set "Wavelength" (RQuantity wavelength) map_ in
  Ok map_.

End Normalizer.

(** ** Templates: URL skeletons and filename grammars

    Both are Python strings with brace fields; a template is the list of
    its literal runs and fields, a field being [{name:spec}] with the
    specification kept as written ([name] is empty for [{}]). *)

Inductive seg : Type :=
| Lit (s : string)
| Fld (name : string) (spec : string).

Abbreviation template := (list seg).

Definition baseurl1b : template :=
  [ Lit "https://data.ngdc.noaa.gov/platforms/solar-space-observing-satellites/goes/goes";
    Fld "SatelliteNumber" ""; Lit "/l1b/suvi-l1b-"; Fld "elem" "2"; Fld "wave" "03";
    Lit "/%Y/%m/%d/OR_SUVI-L1b.*\.fits.gz" ].

Definition pattern1b : template :=
  [ Fld "" ""; Lit "/goes/goes"; Fld "SatelliteNumber" "2d"; Lit "/l"; Fld "Level" "2w";
    Lit "/suvi-l1b-"; Fld "" ""; Fld "Wavelength" "03d"; Lit "/";
    Fld "year" "4d"; Lit "/"; Fld "month" "2d"; Lit "/"; Fld "day" "2d"; Lit "/";
    Fld "" ""; Lit "_s"; Fld "" "7d"; Fld "hour" "2d"; Fld "minute" "2d"; Fld "second" "2d";
    Fld "" "1d"; Lit "_e"; Fld "" "7d"; Fld "ehour" "2d"; Fld "eminute" "2d";
    Fld "esecond" "2d"; Fld "" "1d"; Lit "_"; Fld "" "" ].

Definition baseurl2 : template :=
  [ Lit "https://data.ngdc.noaa.gov/platforms/solar-space-observing-satellites/goes/goes";
    Fld "SatelliteNumber" ""; Lit "/l2/data/suvi-l2-ci"; Fld "wave" "03";
    Lit "/%Y/%m/%d/dr_suvi-l2-ci"; Fld "wave" "03"; Lit "_g"; Fld "SatelliteNumber" "";
    Lit "_s%Y%m%dT%H%M%SZ_.*\.fits" ].

Definition pattern2 : template :=
  [ Fld "" ""; Lit "/goes/goes"; Fld "SatelliteNumber" "2d"; Lit "/"; Fld "" "";
    Lit "/dr_suvi-l"; Fld "Level" ""; Lit "-ci"; Fld "Wavelength" "03d"; Lit "_g";
    Fld "SatelliteNumber" "2d"; Lit "_s";
    Fld "year" "4d"; Fld "month" "2d"; Fld "day" "2d"; Lit "T";
    Fld "hour" "2d"; Fld "minute" "2d"; Fld "second" "2d"; Lit "Z_e";
    Fld "eyear" "4d"; Fld "emonth" "2d"; Fld "eday" "2d"; Lit "T";
    Fld "ehour" "2d"; Fld "eminute" "2d"; Fld "esecond" "2d"; Lit "Z_"; Fld "" "" ].

(** The named fields a grammar exposes, in order of first appearance. *)
Fixpoint named_fields (t : template) : list string :=
  match t with
  | [] => []
  | Lit _ :: t' => named_fields t'
  | Fld name _ :: t' =>
      let rest := named_fields t' in
      if decide (name = "") then rest
      else name :: filter (λ n, n ≠ name) rest
  end.

(** ** [str.format] on the fragment the skeletons use *)

Inductive fval : Type :=
| FInt (n : Z)
| FStr (s : string).

Definition digit_of (c : ascii) : option nat :=
  let n := nat_of_ascii c in
  if (48 <=? n)%nat && (n <=? 57)%nat then Some (n - 48)%nat else None.

Fixpoint read_width (s : string) (acc : option nat) : option nat * string :=
  match s with
  | String c s' =>
      match digit_of c with
      | Some d => read_width s' (Some (10 * default 0%nat acc + d)%nat)
      | None => (acc, s)
      end
  | EmptyString => (acc, s)
  end.

(** A format specification [[0][width][type]]: the zero flag, the width and
    what is left for the type. *)
Definition read_spec (spec : string) : bool * option nat * string :=
  match spec with
  | String "0" rest => let '(w, ty) := read_width rest None in (true, w, ty)
  | _ => let '(w, ty) := read_width spec None in (false, w, ty)
  end.

Fixpoint string_rep (n : nat) (c : ascii) : string :=
  match n with
  | O => ""
  | S n' => String c (string_rep n' c)
  end.

(** [str(n)] *)
Definition str_of_int (n : Z) : string := pretty n.

Definition format_int (zero : bool) (width : option nat) (n : Z) : string :=
  let sign := if n <? 0 then "-" else "" in
  let digits := pretty (Z.abs_N n) in
  let len := (String.length sign + String.length digits)%nat in
  let pad := (default 0%nat width - len)%nat in
  if zero then sign +:+ string_rep pad "0" +:+ digits
  else string_rep pad " " +:+ sign +:+ digits.

Definition format_str (width : option nat) (s : string) : string :=
  s +:+ string_rep (default 0%nat width - String.length s)%nat " ".

Definition format_field (spec : string) (v : fval) : Result string :=
  let '(zero, width, ty) := read_spec spec in
  match v with
  | FInt n =>
      if decide (ty = "" ∨ ty = "d") then Ok (format_int zero width n)
      else Raise (ValueError "Unknown format code for object of type 'int'")
  | FStr s =>
      if decide (ty = "" ∨ ty = "s") then
        if zero then Raise (ValueError "'=' alignment not allowed in string format specifier")
        else Ok (format_str width s)
      else Raise (ValueError "Unknown format code for object of type 'str'")
  end.

(** [t.format] on the unpacked dictionary: fields are filled from left to right; a name
    the dictionary lacks is a [KeyError], a positional field an
    [IndexError]. *)
Fixpoint format (t : template) (formdict : gmap string fval) : Result string :=
  match t with
  | [] => Ok ""
  | Lit s :: t' =>
      try rest := format t' formdict in Ok (s +:+ rest)
  | Fld name spec :: t' =>
      try v := (if decide (name = "") then Raise IndexError
                else match formdict !! name with
                     | Some v => Ok v
                     | None => Raise (KeyError name)
                     end) in
      try piece := format_field spec v in
      try rest := format t' formdict in
      Ok (piece +:+ rest)
  end.

(** ** The fan-out driver

    [search] calls the scraper, whose listings are the only effect.  A
    computation threads the log of scraper calls made so far and returns a
    value or raises; what was logged before an exception stays logged. *)

Record ScrapeCall : Type := mk_call {
  call_url : string;
  call_time : TimeRange;
  call_extractor : template
}.

Definition M (A : Type) : Type := list ScrapeCall → Result A * list ScrapeCall.

Definition retM {A : Type} (a : A) : M A := λ log, (Ok a, log).

Definition bindM {A B : Type} (m : M A) (k : A → M B) : M B :=
  λ log, match m log with
         | (Ok a, log') => k a log'
         | (Raise e, log') => (Raise e, log')
         end.

Definition liftR {A : Type} (r : Result A) : M A := λ log, (r, log).

Notation "'run' x := m 'in' k" := (bindM m (fun x => k))
  (at level 10, x name, m at level 100, k at level 200).

(** [for x in xs: s = body(x, s)] *)
Fixpoint for_each {A S : Type} (xs : list A) (body : A → S → M S) (s : S) : M S :=
  match xs with
  | [] => retM s
  | x :: xs' => run s' := body x s in for_each xs' body s'
  end.

(** Iterating over what [matchdict.get] returned: [None] is not iterable. *)
Definition iter {A : Type} (o : option (list A)) : Result (list A) :=
  match o with
  | Some l => Ok l
  | None => Raise TypeError
  end.

Definition supported_waves : list Quantity :=
  angstroms <$> [94; 131; 171; 195; 284; 304].

(** The branch taken for one level: the [elem] entry of [formdict] is set
    for level 1b only. *)
Definition select_branch (level : string) (wave : Z) (formdict : gmap string fval)
  : Result (gmap string fval * template * template) :=
  if decide (level = "1b") then
    let formdict := <["elem" := FStr "fe"]> formdict in
    let formdict := if wave =? 304 then <["elem" := FStr "he"]> formdict else formdict in
    Ok (formdict, baseurl1b, pattern1b)
  else if decide (level = "2") then
    Ok (formdict, baseurl2, pattern2)
  else Raise (ValueError ("Level " +:+ level +:+ " is not supported.")).

Section Search.

Variable TIME_FORMAT : string.
Variable strftime : datetime → string → string.

(** [q.to(u.Angstrom, equivalencies=u.spectral())], the unit library's
    conversion, taken as given. *)
Variable to_Angstrom : Quantity → Result Quantity.

(** [Scraper(urlpattern)._extract_files_meta(timerange, extractor=pattern)]:
    the raw matches of one combination, or the exception it raised. *)
Variable extract_files_meta : string → TimeRange → template → Result (list RawMatch).

Definition scrape (urlpattern : string) (timerange : TimeRange) (pattern : template)
  : M (list RawMatch) :=
  λ log, (extract_files_meta urlpattern timerange pattern,
          (log ++ [mk_call urlpattern timerange pattern])%list).

(** The wavelengths to search: the supported ones inside the requested
    range, or all of them when the query has no wavelength. *)
Definition requested_waves (matchdict : MatchDict) : Result (list Z) :=
  match md_Wavelength matchdict with
  | Some req_wave =>
      try wmin := to_Angstrom (wl_min req_wave) in
      try wmax := to_Angstrom (wl_max req_wave) in
      let req_wave := Wavelength wmin wmax in
      Ok ((λ wave, int_of_float (q_value wave)) <$>
            filter (λ wave, wavelength_contains req_wave wave = true) supported_waves)
  | None => Ok ((λ i, int_of_float (q_value i)) <$> supported_waves)
  end.

(** [for i in filesmeta: metalist.append(self.post_search_hook(i, matchdict))] *)
Fixpoint normalize_all (filesmeta : list RawMatch) (matchdict : MatchDict)
    (metalist : list Record_) : Result (list Record_) :=
  match filesmeta with
  | [] => Ok metalist
  | i :: rest =>
      try map_ := post_search_hook TIME_FORMAT strftime i matchdict in
      normalize_all rest matchdict (metalist ++ [map_])%list
  end.

(** The body of the innermost loop. *)
Definition search_combination (matchdict : MatchDict) (satno : Z) (level : string)
    (wave : Z) (metalist : list Record_) : M (list Record_) :=
  let formdict : gmap string fval :=
    <["SatelliteNumber" := FInt satno]> (<["wave" := FInt wave]> ∅) in
  run branch := liftR (select_branch level wave formdict) in
  let '(formdict, baseurl, pattern) := branch in
  (* formatting baseurl using Level, SatelliteNumber and Wavelength *)
  run urlpattern := liftR (format baseurl formdict) in
  run timerange := liftR (match md_Time matchdict with
                          | Some t => Ok t
                          | None => Raise (KeyError "Time")
                          end) in
  run filesmeta := scrape urlpattern timerange pattern in
  liftR (normalize_all filesmeta matchdict metalist).

Definition search (matchdict : MatchDict) : M (list Record_) :=
  run all_waves := liftR (requested_waves matchdict) in
  let all_satnos := md_SatelliteNumber matchdict in
  let all_levels := md_Level matchdict in
  let metalist : list Record_ := [] in
  (* iterating over all possible Attr values through loops *)
  run satnos := liftR (iter all_satnos) in
  for_each satnos (λ satno metalist,
    run levels := liftR (iter all_levels) in
    for_each levels (λ level metalist,
      for_each all_waves (λ wave metalist,
        search_combination matchdict satno level wave metalist) metalist) metalist)
    metalist.

End Search.

(** ** Loops over results and the Cartesian product *)

Fixpoint mapR {A B : Type} (f : A → Result B) (xs : list A) : Result (list B) :=
  match xs with
  | [] => Ok []
  | x :: xs' =>
      try y := f x in
      try ys := mapR f xs' in
      Ok (y :: ys)
  end.

(** The Cartesian product in the order the loops visit it: satellite
    numbers outermost, wavelengths innermost. *)
Definition combinations (satnos : list Z) (levels : list string) (waves : list Z)
  : list (Z * string * Z) :=
  flat_map (λ satno,
    flat_map (λ level, (λ wave, (satno, level, wave)) <$> waves) levels) satnos.

(** ** Reference descriptions of one combination *)

(** The dictionary the loop body starts from. *)
Definition base_formdict (satno wave : Z) : gmap string fval :=
  <["SatelliteNumber" := FInt satno]> (<["wave" := FInt wave]> ∅).

(** The scraper call a combination is bound to: branch selection, then the
    skeleton filled in, then the query's time range. *)
Definition bound_call (matchdict : MatchDict) (c : Z * string * Z) : Result ScrapeCall :=
  let '(satno, level, wave) := c in
  try branch := select_branch level wave (base_formdict satno wave) in
  let '(formdict, baseurl, pattern) := branch in
  try urlpattern := format baseurl formdict in
  try timerange := (match md_Time matchdict with
                    | Some t => Ok t
                    | None => Raise (KeyError "Time")
                    end) in
  Ok (mk_call urlpattern timerange pattern).

(** One combination on its own: its call and the records of its matches. *)
Definition combination_outcome (TIME_FORMAT : string) (strftime : datetime → string → string)
    (extract_files_meta : string → TimeRange → template → Result (list RawMatch))
    (matchdict : MatchDict) (c : Z * string * Z) : Result (ScrapeCall * list Record_) :=
  try call := bound_call matchdict c in
  try filesmeta := extract_files_meta (call_url call) (call_time call) (call_extractor call) in
  try records := mapR (λ i, post_search_hook TIME_FORMAT strftime i matchdict) filesmeta in
  Ok (call, records).

(** The same query with another wavelength constraint. *)
Definition with_Wavelength (wl : option WavelengthAttr) (matchdict : MatchDict) : MatchDict :=
  {| md_Time := md_Time matchdict;
     md_Wavelength := wl;
     md_SatelliteNumber := md_SatelliteNumber matchdict;
     md_Level := md_Level matchdict;
     md_Instrument := md_Instrument matchdict;
     md_Physobs := md_Physobs matchdict;
     md_Source := md_Source matchdict;
     md_Provider := md_Provider matchdict |}.

(** The integer values of the supported wavelengths. *)
Definition supported_values : list Z := [94; 131; 171; 195; 284; 304].

(** ** The directory scraper *)

Record ScrapeReport : Type := mk_report {
  report_matches : list RawMatch;
  report_failed : list string
}.

Section DirectoryScraper.

(** The collaborators of the scraper: the candidate URLs of the calendar
    units of a span, the directory listing (which may fail) and the grammar
    match of one entry name. *)
Variable calendar_units : string → TimeRange → list string.
Variable list_directory : string → option (list string).
Variable parse_entry : template → string → option RawMatch.

(** Modelled from the spec: the Directory Scraper
    ([Scraper._extract_files_meta], defined in sunpy.util.scraper and only
    imported by this module).  It walks the calendar units in order, lists each one
    and applies the grammar to every entry name; entries that do not match
    are skipped; a unit whose listing fails is collected and the walk
    continues, so the report holds the matches and the failed units. *)
Fixpoint scrape_units (pattern : template) (units : list string) : ScrapeReport :=
  match units with
  | [] => mk_report [] []
  | u :: rest =>
      let r := scrape_units pattern rest in
      match list_directory u with
      | Some entries =>
          mk_report (omap (parse_entry pattern) entries ++ report_matches r)%list
                    (report_failed r)
      | None => mk_report (report_matches r) (u :: report_failed r)
      end
  end.

Definition directory_scraper (urlpattern : string) (timerange : TimeRange)
    (pattern : template) : ScrapeReport :=
  scrape_units pattern (calendar_units urlpattern timerange).

(** Modelled from the spec: the value [Scraper._extract_files_meta] hands
    to [search] when it follows the specification, where a failed unit is
    collected and the scrape continues.  The loop [for i in filesmeta] of
    [search] indexes every item as a raw match, so what it can receive of
    the report is the matches; the failed units stay with the scraper and
    nothing is raised. *)
Definition scraper_filesmeta (urlpattern : string) (timerange : TimeRange)
    (pattern : template) : Result (list RawMatch) :=
  Ok (report_matches (directory_scraper urlpattern timerange pattern)).

(** The other treatment a scraper can give a failed unit: the same walk,
    raising for the first unit that failed to list. *)
Definition scraper_raising (urlpattern : string) (timerange : TimeRange)
    (pattern : template) : Result (list RawMatch) :=
  let report := directory_scraper urlpattern timerange pattern in
  match report_failed report with
  | [] => Ok (report_matches report)
  | u :: _ => Raise (ListingError u)
  end.

End DirectoryScraper.

(** A listing in which every failed unit is an empty directory instead. *)
Definition failures_as_empty (list_directory : string → option (list string))
  : string → option (list string) :=
  λ u, Some (default [] (list_directory u)).

(** ** A concrete environment for examples *)

Definition two_digits (n : Z) : string := format_int true (Some 2%nat) n.

(** The numeric directives of [strftime]; any other character is copied. *)
Fixpoint strftime_numeric (t : datetime) (fmt : string) : string :=
  match fmt with
  | String "%" (String c rest) =>
      (if decide (c = "Y"%char) then format_int true (Some 4%nat) (dt_year t)
       else if decide (c = "m"%char) then two_digits (dt_month t)
       else if decide (c = "d"%char) then two_digits (dt_day t)
       else if decide (c = "H"%char) then two_digits (dt_hour t)
       else if decide (c = "M"%char) then two_digits (dt_minute t)
       else if decide (c = "S"%char) then two_digits (dt_second t)
       else String "%" (String c "")) +:+ strftime_numeric t rest
  | String c rest => String c (strftime_numeric t rest)
  | EmptyString => ""
  end.

Definition sample_TIME_FORMAT : string := "%Y-%m-%d %H:%M:%S".

(** Angstrom stays, nanometres are ten angstroms, anything else does not
    convert. *)
Definition sample_to_Angstrom (q : Quantity) : Result Quantity :=
  match q_unit q with
  | Angstrom => Ok q
  | UnitNamed name =>
      if decide (name = "nm") then Ok (mk_quantity (q_value q * 10) Angstrom)
      else Raise UnitConversionError
  end.

(** The raw match of a level-2 file name
    [dr_suvi-l2-ci{wave}_g{satno}_s{start}Z_e{end}Z_...]. *)
Definition level2_match (satno wave : Z) (s e : datetime) : RawMatch :=
  list_to_map
    [ ("SatelliteNumber", PInt satno); ("Level", PStr "2"); ("Wavelength", PInt wave);
      ("year", PInt (dt_year s)); ("month", PInt (dt_month s)); ("day", PInt (dt_day s));
      ("hour", PInt (dt_hour s)); ("minute", PInt (dt_minute s)); ("second", PInt (dt_second s));
      ("eyear", PInt (dt_year e)); ("emonth", PInt (dt_month e)); ("eday", PInt (dt_day e));
      ("ehour", PInt (dt_hour e)); ("eminute", PInt (dt_minute e)); ("esecond", PInt (dt_second e)) ].

Definition sample_matchdict (wl : option WavelengthAttr) (satnos : list Z) (levels : list string)
  : MatchDict :=
  {| md_Time := Some (mk_timerange (mk_datetime 2019 4 3 0 0 0) (mk_datetime 2019 4 3 23 59 59));
     md_Wavelength := wl;
     md_SatelliteNumber := Some satnos;
     md_Level := Some levels;
     md_Instrument := Some ["SUVI"];
     md_Physobs := Some ["flux"];
     md_Source := Some ["GOES"];
     md_Provider := Some ["NOAA"] |}.

Definition midnight_match : RawMatch :=
  level2_match 16 195 (mk_datetime 2019 4 3 23 56 0) (mk_datetime 2019 4 4 0 0 0).


(** The end instant a level-2 file name encodes: its own end date
    ([eyear], [emonth], [eday]) with its end time. *)
Definition filename_end_instant (i : RawMatch) : Result datetime :=
  try b1 := getitem i "eyear" in
  try b2 := getitem i "emonth" in
  try b3 := getitem i "eday" in
  try b4 := getitem i "ehour" in
  try b5 := getitem i "eminute" in
  try b6 := getitem i "esecond" in
  datetime_new b1 b2 b3 b4 b5 b6.

(** The ten keys of a metadata record, as the normalizer writes them. *)
Definition record_keys : list string :=
  [ "Time"; "Start Time"; "End Time"; "Instrument"; "Phsyobs"; "Source"; "Provider";
    "SatelliteNumber"; "Level"; "Wavelength" ].

(** ** Mock archives for the examples *)

Definition level2_url (satno wave : Z) : string :=
  match format baseurl2 (base_formdict satno wave) with
  | Ok url => url
  | Raise _ => ""
  end.

(** A scraper over a fixed archive: the matches filed under the URL. *)
Definition archive_scraper (archive : list (string * list RawMatch))
    (urlpattern : string) (timerange : TimeRange) (pattern : template)
  : Result (list RawMatch) :=
  Ok (default [] ((list_to_map archive : gmap string (list RawMatch)) !! urlpattern)).

(** One level-2 entry for each of the satellites 13 and 15 and the
    wavelengths 195 and 284, on a single day. *)
Definition scenario_archive : list (string * list RawMatch) :=
  (λ c : Z * Z,
     (level2_url c.1 c.2,
      [level2_match c.1 c.2 (mk_datetime 2019 4 3 0 0 0) (mk_datetime 2019 4 3 0 4 0)]))
  <$> [(13, 195); (13, 284); (15, 195); (15, 284)].

Definition scenario_matchdict : MatchDict :=
  sample_matchdict (Some (Wavelength (angstroms 195) (angstroms 284))) [13; 15] ["2"].

(** A five-day span whose units are named by their day. *)
Definition five_days : TimeRange :=
  mk_timerange (mk_datetime 2019 4 1 0 0 0) (mk_datetime 2019 4 5 23 59 59).

Definition day_units (urlpattern : string) (timerange : TimeRange) : list string :=
  (λ d, pretty d) <$> seqZ (dt_day (tr_start timerange))
                           (dt_day (tr_end timerange) - dt_day (tr_start timerange) + 1).

Definition entry_match (pattern : template) (name : string) : option RawMatch :=
  if decide (name = "first") then
    Some (level2_match 16 195 (mk_datetime 2019 4 1 0 0 0) (mk_datetime 2019 4 1 0 4 0))
  else if decide (name = "third") then
    Some (level2_match 16 195 (mk_datetime 2019 4 3 0 0 0) (mk_datetime 2019 4 3 0 4 0))
  else if decide (name = "fifth") then
    Some (level2_match 16 195 (mk_datetime 2019 4 5 0 0 0) (mk_datetime 2019 4 5 0 4 0))
  else None.

(** Days 2 and 4 fail to list; days 1, 3 and 5 each hold one matching
    entry. *)
Definition listing_two_failed (u : string) : option (list string) :=
  if decide (u = "1") then Some ["first"]
  else if decide (u = "3") then Some ["third"; "README"]
  else if decide (u = "5") then Some ["fifth"]
  else None.

(** Every unit fails to list. *)
Definition listing_all_failed (u : string) : option (list string) := None.

(** Every unit lists, and is empty. *)
Definition listing_all_empty (u : string) : option (list string) := Some [].

Definition five_days_matchdict : MatchDict :=
  {| md_Time := Some five_days;
     md_Wavelength := Some (Wavelength (angstroms 195) (angstroms 195));
     md_SatelliteNumber := Some [16];
     md_Level := Some ["2"];
     md_Instrument := Some ["SUVI"];
     md_Physobs := Some ["flux"];
     md_Source := Some ["GOES"];
     md_Provider := Some ["NOAA"] |}.

(** The fan-out scenario: satellites 13 and 15, level 2, the range from
    195 to 284 angstrom (which holds 195 and 284 only), one matching entry
    per satellite and wavelength. *)
Definition scenario_outcomes : list (ScrapeCall * list Record_) :=
  match mapR (combination_outcome sample_TIME_FORMAT strftime_numeric
                (archive_scraper scenario_archive) scenario_matchdict)
             (combinations [13; 15] ["2"] [195; 284]) with
  | Ok outs => outs
  | Raise _ => []
  end.

Definition scenario_first_record : Record_ :=
  default [] (head (concat scenario_outcomes.*2)).

(** ** The attribute registries and the search hooks of the two clients *)

(** [[(str(x), f"GOES Satellite Number {x}") for x in goes_number]] *)
Definition satellite_entries (goes_number : list Z) : list (string * string) :=
  (λ x, (str_of_int x, "GOES Satellite Number " +:+ str_of_int x)) <$> goes_number.

Module XRSClient.

Definition _attrs_module : string * string :=
  ("goes", "sunpy.net.dataretriever.attrs.goes").

(** The dictionary of [register_values], keyed by the attribute's name. *)
Definition register_values : gmap string (list (string * string)) :=
  let goes_number := [2; 5; 6; 7; 8; 9; 10; 11; 12; 13; 14; 15] in
  list_to_map
    [ ("Instrument",
       [ ("GOES", "The Geostationary Operational Environmental Satellite Program.");
         ("XRS", "GOES X-ray Flux") ]);
      ("SatelliteNumber", satellite_entries goes_number);
      ("Source", [ ("NASA", "The National Aeronautics and Space Administration.") ]);
      ("Physobs", [ ("irradiance", "the flux of radiant energy per unit area.") ]);
      ("Provider", [ ("SDAC", "The Solar Data Analysis Center.") ]) ].

End XRSClient.

Module SUVIClient.

Definition _attrs_module : string * string :=
  ("goes", "sunpy.net.dataretriever.attrs.goes").

Definition register_values : gmap string (list (string * string)) :=
  let goes_number := [16; 17] in
  list_to_map
    [ ("Instrument", [ ("SUVI", "GOES Solar Ultraviolet Imager.") ]);
      ("SatelliteNumber", satellite_entries goes_number);
      ("Source",
       [ ("GOES", "The Geostationary Operational Environmental Satellite Program.") ]);
      ("Physobs",
       [ ("flux",
          "a measure of the amount of radiation received by an object from a given source.") ]);
      ("Provider", [ ("NOAA", "The National Oceanic and Atmospheric Administration.") ]);
      ("Level",
       [ ("1b", "Solar images at six wavelengths with image exposures 10 msec or 1 sec.");
         ("2", "Weighted average of level-1b product files of SUVI.") ]) ].

(** [pre_search_hook]: the two skeletons, the two grammars and the match
    dictionary, which [_get_match_dict] builds from the query. *)
Definition pre_search_hook {Args : Type} (_get_match_dict : Args → MatchDict) (args : Args)
  : template * template * template * template * MatchDict :=
  let matchdict := _get_match_dict args in
  (baseurl1b, pattern1b, baseurl2, pattern2, matchdict).

End SUVIClient.

(** The values registered for an attribute. *)
Definition registered_values (registry : gmap string (list (string * string)))
    (attr : string) : list string :=
  (default [] (registry !! attr)).*1.

(** ** Vocabulary for the properties of the normalizer and of the driver *)

(** The keys [post_search_hook] reads from a raw match. *)
Definition hook_keys : list string :=
  [ "year"; "month"; "day"; "hour"; "minute"; "second";
    "ehour"; "eminute"; "esecond"; "SatelliteNumber"; "Level"; "Wavelength" ].

(** The keys [post_search_hook] reads from the match dictionary. *)
Definition metadata_keys : list string := [ "Instrument"; "Physobs"; "Source"; "Provider" ].

(** A calendar instant: what [datetime] accepts. *)
Definition valid_datetime (t : datetime) : Prop :=
  1 ≤ dt_year t ≤ 9999 ∧ 1 ≤ dt_month t ≤ 12 ∧
  1 ≤ dt_day t ≤ days_in_month (dt_year t) (dt_month t) ∧
  0 ≤ dt_hour t ≤ 23 ∧ 0 ≤ dt_minute t ≤ 59 ∧ 0 ≤ dt_second t ≤ 59.

(** The URL of a level-1b directory and of a level-2 file pattern, written
    out. *)
Definition url1b (satno wave : Z) : string :=
  "https://data.ngdc.noaa.gov/platforms/solar-space-observing-satellites/goes/goes"
  +:+ str_of_int satno +:+ "/l1b/suvi-l1b-" +:+ (if decide (wave = 304) then "he" else "fe")
  +:+ format_int true (Some 3%nat) wave +:+ "/%Y/%m/%d/OR_SUVI-L1b.*\.fits.gz".

Definition url2 (satno wave : Z) : string :=
  "https://data.ngdc.noaa.gov/platforms/solar-space-observing-satellites/goes/goes"
  +:+ str_of_int satno +:+ "/l2/data/suvi-l2-ci" +:+ format_int true (Some 3%nat) wave
  +:+ "/%Y/%m/%d/dr_suvi-l2-ci" +:+ format_int true (Some 3%nat) wave
  +:+ "_g" +:+ str_of_int satno +:+ "_s%Y%m%dT%H%M%SZ_.*\.fits".

(** The combinations a query fans out to; an axis that is absent, or a
    wavelength list that could not be computed, contributes none. *)
Definition query_combinations (to_Angstrom : Quantity → Result Quantity)
    (matchdict : MatchDict) : list (Z * string * Z) :=
  combinations (default [] (md_SatelliteNumber matchdict))
               (default [] (md_Level matchdict))
               (match requested_waves to_Angstrom matchdict with
                | Ok waves => waves
                | Raise _ => []
                end).

(** The raw matches the scraper returned for a list of calls, in order. *)
Definition scraped
    (extract_files_meta : string → TimeRange → template → Result (list RawMatch))
    (calls : list ScrapeCall) : list RawMatch :=
  concat ((λ call,
            match extract_files_meta (call_url call) (call_time call)
                    (call_extractor call) with
            | Ok filesmeta => filesmeta
            | Raise _ => []
            end) <$> calls).

(** A level-1b raw match: the fields [pattern1b] names. *)
Definition level1b_match (satno wave : Z) (s : datetime) (eh emi es : Z) : RawMatch :=
  list_to_map
    [ ("SatelliteNumber", PInt satno); ("Level", PStr "1b"); ("Wavelength", PInt wave);
      ("year", PInt (dt_year s)); ("month", PInt (dt_month s)); ("day", PInt (dt_day s));
      ("hour", PInt (dt_hour s)); ("minute", PInt (dt_minute s)); ("second", PInt (dt_second s));
      ("ehour", PInt eh); ("eminute", PInt emi); ("esecond", PInt es) ].

(** A scraper that fails on the level-2 directory of satellite 15 and
    wavelength 195 and answers from the scenario archive elsewhere. *)
Definition failing_scraper (urlpattern : string) (timerange : TimeRange) (pattern : template)
  : Result (list RawMatch) :=
  if decide (urlpattern = level2_url 15 195) then Raise (ListingError "503")
  else archive_scraper scenario_archive urlpattern timerange pattern.

(** * Properties *)

(** ** The record normalizer *)

Ltac step_bind H :=
  match type of H with
  | bindR ?m _ = Ok _ =>
      let E := fresh "E" in
      destruct m eqn:E; simpl in H; [ | discriminate H ]
  end.

Lemma getitem_Ok (i : RawMatch) key v : getitem i key = Ok v → i !! key = Some v.
Proof. unfold getitem. destruct (i !! key); congruence. Qed.

Lemma as_int_Ok v n : as_int v = Ok n → v = PInt n.
Proof. destruct v; simpl; congruence. Qed.

Lemma datetime_new_Ok a b c d e f t :
  datetime_new a b c d e f = Ok t →
  ∃ y mo dd h mi s,
    a = PInt y ∧ b = PInt mo ∧ c = PInt dd ∧ d = PInt h ∧ e = PInt mi ∧ f = PInt s ∧
    datetime_of_ints y mo dd h mi s = Ok t.
Proof.
  unfold datetime_new. intros H.
  repeat step_bind H.
  repeat match goal with E : as_int _ = Ok _ |- _ => apply as_int_Ok in E end.
  subst. do 6 eexists. repeat (split; [ reflexivity | ]). exact H.
Qed.

Lemma datetime_of_ints_Ok y mo d h mi s t :
  datetime_of_ints y mo d h mi s = Ok t → t = mk_datetime y mo d h mi s.
Proof.
  unfold datetime_of_ints.
  repeat match goal with |- context [if ?b then _ else _] => destruct b end;
    congruence.
Qed.

Section NormalizerFacts.

Variable TIME_FORMAT : string.
Variable strftime : datetime → string → string.

Abbreviation hook := (post_search_hook TIME_FORMAT strftime).

(** What a successful call of the normalizer read and what it wrote. *)
Lemma post_search_hook_Ok (i : RawMatch) (matchdict : MatchDict) (r : Record_) :
  hook i matchdict = Ok r →
  ∃ y mo d h mi s eh emi es instrument physobs source provider satno level w,
    i !! "year" = Some (PInt y) ∧ i !! "month" = Some (PInt mo) ∧
    i !! "day" = Some (PInt d) ∧
    i !! "hour" = Some (PInt h) ∧ i !! "minute" = Some (PInt mi) ∧
    i !! "second" = Some (PInt s) ∧
    i !! "ehour" = Some (PInt eh) ∧ i !! "eminute" = Some (PInt emi) ∧
    i !! "esecond" = Some (PInt es) ∧
    first_of "Instrument" (md_Instrument matchdict) = Ok instrument ∧
    first_of "Physobs" (md_Physobs matchdict) = Ok physobs ∧
    first_of "Source" (md_Source matchdict) = Ok source ∧
    first_of "Provider" (md_Provider matchdict) = Ok provider ∧
    i !! "SatelliteNumber" = Some satno ∧ i !! "Level" = Some level ∧
    i !! "Wavelength" = Some (PInt w) ∧
    let start := mk_datetime y mo d h mi s in
    let end_ := mk_datetime y mo d eh emi es in
    r = [ ("Time", RTime (mk_timerange start end_));
          ("Start Time", RStr (strftime start TIME_FORMAT));
          ("End Time", RStr (strftime end_ TIME_FORMAT));
          ("Instrument", RStr instrument);
          ("Phsyobs", RStr physobs);
          ("Source", RStr source);
          ("Provider", RStr provider);
          ("SatelliteNumber", RField satno);
          ("Level", RField level);
          ("Wavelength", RQuantity (angstroms w)) ].
Proof.
  unfold post_search_hook. intros H.
  repeat step_bind H.
  repeat match goal with E : getitem _ _ = Ok _ |- _ => apply getitem_Ok in E end.
  repeat match goal with
         | E : datetime_new _ _ _ _ _ _ = Ok _ |- _ =>
             apply datetime_new_Ok in E;
             destruct E as (?&?&?&?&?&?&?&?&?&?&?&?&E);
             apply datetime_of_ints_Ok in E
         end.
  match goal with
  | E : times_angstrom ?v = Ok _ |- _ =>
      destruct v; simpl in E; [ injection E as <- | discriminate E ]
  end.
  injection H as <-. subst.
  repeat match goal with
         | E : PInt _ = PInt _ |- _ => injection E as ->
         end.
  do 16 eexists. repeat (split; [ first [ eassumption | reflexivity ] | ]).
  reflexivity.
Qed.

End NormalizerFacts.

(** ** Loops: lemmas *)

Lemma bindM_ext {A B : Type} (m : M A) (k k' : A → M B) log :
  (∀ a log', k a log' = k' a log') → bindM m k log = bindM m k' log.
Proof. intros H. unfold bindM. destruct (m log) as [[a|e] log']; auto. Qed.

Lemma for_each_ext {A S : Type} (xs : list A) (body body' : A → S → M S) s log :
  (∀ x s' log', x ∈ xs → body x s' log' = body' x s' log') →
  for_each xs body s log = for_each xs body' s log.
Proof.
  revert s log. induction xs as [|x xs IH]; intros s log H; [ reflexivity | ].
  simpl. unfold bindM. rewrite H by left.
  destruct (body' x s log) as [[s'|e] log']; [ | reflexivity ].
  apply IH. intros. apply H. by right.
Qed.

Lemma for_each_app {A S : Type} (xs ys : list A) (body : A → S → M S) s log :
  for_each (xs ++ ys) body s log
  = bindM (for_each xs body s) (for_each ys body) log.
Proof.
  revert s log. induction xs as [|x xs IH]; intros s log; simpl.
  - reflexivity.
  - unfold bindM in *. destruct (body x s log) as [[s'|e] log']; [ apply IH | reflexivity ].
Qed.

Lemma for_each_flat_map {A B S : Type} (f : A → list B) (xs : list A)
    (body : B → S → M S) s log :
  for_each (flat_map f xs) body s log
  = for_each xs (λ x s', for_each (f x) body s') s log.
Proof.
  revert s log. induction xs as [|x xs IH]; intros s log; simpl.
  - reflexivity.
  - rewrite for_each_app. apply bindM_ext. intros. apply IH.
Qed.

Lemma for_each_fmap {A B S : Type} (f : A → B) (xs : list A)
    (body : B → S → M S) s log :
  for_each (f <$> xs) body s log = for_each xs (λ x, body (f x)) s log.
Proof.
  revert s log. induction xs as [|x xs IH]; intros s log; simpl.
  - reflexivity.
  - apply bindM_ext. intros. apply IH.
Qed.

Lemma combinations_length satnos levels waves :
  length (combinations satnos levels waves)
  = (length satnos * length levels * length waves)%nat.
Proof.
  unfold combinations. induction satnos as [|s ss IH]; simpl; [ reflexivity | ].
  rewrite length_app, IH.
  assert (length (flat_map (λ level, (λ wave, (s, level, wave)) <$> waves) levels)
          = (length levels * length waves)%nat) as ->.
  { clear IH. induction levels as [|l ls IHl]; simpl; [ reflexivity | ].
    rewrite length_app, length_fmap, IHl. reflexivity. }
  lia.
Qed.

Lemma elem_of_combinations satnos levels waves s l w :
  s ∈ satnos → l ∈ levels → w ∈ waves → (s, l, w) ∈ combinations satnos levels waves.
Proof.
  intros Hs Hl Hw. unfold combinations.
  apply list_elem_of_In, in_flat_map. exists s. split; [ by apply list_elem_of_In | ].
  apply in_flat_map. exists l. split; [ by apply list_elem_of_In | ].
  apply list_elem_of_In, list_elem_of_fmap. eauto.
Qed.

Lemma combinations_no_waves satnos levels : combinations satnos levels [] = [].
Proof.
  apply elem_of_nil_inv. intros c Hc.
  apply list_elem_of_In, in_flat_map in Hc as (s & _ & Hc).
  apply in_flat_map in Hc as (l & _ & Hc). destruct Hc.
Qed.

(** ** The fan-out driver: structure of [search] *)

Lemma mapR_length {A B : Type} (f : A → Result B) xs ys :
  mapR f xs = Ok ys → length ys = length xs.
Proof.
  revert ys. induction xs as [|x xs IH]; simpl; intros ys H.
  - by injection H as <-.
  - destruct (f x); simpl in H; [ | discriminate ].
    destruct (mapR f xs); simpl in H; [ | discriminate ].
    injection H as <-. simpl. by rewrite IH.
Qed.

Lemma mapR_Forall2 {A B : Type} (f : A → Result B) xs ys :
  mapR f xs = Ok ys → Forall2 (λ x y, f x = Ok y) xs ys.
Proof.
  revert ys. induction xs as [|x xs IH]; simpl; intros ys H.
  - injection H as <-. constructor.
  - destruct (f x) eqn:Hx; simpl in H; [ | discriminate ].
    destruct (mapR f xs); simpl in H; [ | discriminate ].
    injection H as <-. constructor; auto.
Qed.

Lemma mapR_elem_Ok {A B : Type} (f : A → Result B) xs ys x :
  mapR f xs = Ok ys → x ∈ xs → ∃ y, f x = Ok y ∧ y ∈ ys.
Proof.
  revert ys. induction xs as [|x' xs IH]; simpl; intros ys H Hx.
  - by apply elem_of_nil in Hx.
  - destruct (f x') as [y'|] eqn:Hx'; simpl in H; [ | discriminate ].
    destruct (mapR f xs) as [ys'|]; simpl in H; [ | discriminate ].
    injection H as <-. apply elem_of_cons in Hx as [->|Hx].
    + exists y'. split; [ done | left ].
    + destruct (IH ys' eq_refl Hx) as (y & Hy & Hin).
      exists y. split; [ done | by right ].
Qed.

Lemma for_each_inv {A S : Type} (P : S → Prop) (xs : list A) (body : A → S → M S)
    s log s' log' :
  (∀ x t l t' l', body x t l = (Ok t', l') → P t → P t') →
  P s → for_each xs body s log = (Ok s', log') → P s'.
Proof.
  intros Hbody. revert s log. induction xs as [|x xs IH]; simpl; intros s log Hs H.
  - unfold retM in H. by injection H as <- _.
  - unfold bindM in H. destruct (body x s log) as [[t|e] l] eqn:Hx; [ | discriminate ].
    eapply IH; [ | exact H ]. eauto.
Qed.

Lemma for_each_cons {A S : Type} (x : A) (xs : list A) (body : A → S → M S) s log :
  for_each (x :: xs) body s log
  = match body x s log with
    | (Ok s', log') => for_each xs body s' log'
    | (Raise e, log') => (Raise e, log')
    end.
Proof. reflexivity. Qed.

Section SearchFacts.

Variable TIME_FORMAT : string.
Variable strftime : datetime → string → string.
Variable to_Angstrom : Quantity → Result Quantity.
Variable extract_files_meta : string → TimeRange → template → Result (list RawMatch).

Lemma normalize_all_mapR filesmeta matchdict metalist :
  normalize_all TIME_FORMAT strftime filesmeta matchdict metalist
  = try records := mapR (λ i, post_search_hook TIME_FORMAT strftime i matchdict) filesmeta in
    Ok (metalist ++ records)%list.
Proof.
  revert metalist. induction filesmeta as [|i rest IH]; intros metalist; simpl.
  - by rewrite app_nil_r.
  - destruct (post_search_hook _ _ i matchdict) as [map_|e]; simpl; [ | done ].
    rewrite IH. destruct (mapR _ rest); simpl; [ | done ].
    by rewrite <- app_assoc.
Qed.

(** The loop body is the reference description of its combination. *)
Lemma search_combination_outcome matchdict satno level wave metalist log :
  search_combination TIME_FORMAT strftime extract_files_meta
    matchdict satno level wave metalist log
  = match bound_call matchdict (satno, level, wave) with
    | Raise e => (Raise e, log)
    | Ok call =>
        (try out := combination_outcome TIME_FORMAT strftime extract_files_meta
                      matchdict (satno, level, wave) in
         Ok (metalist ++ out.2)%list,
         (log ++ [call])%list)
    end.
Proof.
  unfold combination_outcome.
  unfold search_combination, bound_call, base_formdict, bindM, liftR, scrape.
  destruct (select_branch _ _ _) as [[[formdict baseurl] pattern]|e]; simpl; [ | done ].
  destruct (format baseurl formdict) as [urlpattern|e]; simpl; [ | done ].
  destruct (md_Time matchdict) as [timerange|]; simpl; [ | done ].
  destruct (extract_files_meta _ _ _) as [filesmeta|e]; simpl; [ | done ].
  rewrite normalize_all_mapR. by destruct (mapR _ filesmeta).
Qed.

Lemma combination_outcome_call matchdict c call records :
  combination_outcome TIME_FORMAT strftime extract_files_meta matchdict c
  = Ok (call, records) →
  bound_call matchdict c = Ok call.
Proof.
  unfold combination_outcome. intros H.
  repeat step_bind H. by injection H as <- _.
Qed.

Abbreviation loop_body matchdict :=
  (λ (c : Z * string * Z) (metalist : list Record_),
     search_combination TIME_FORMAT strftime extract_files_meta
       matchdict c.1.1 c.1.2 c.2 metalist).

(** With both axes present the three nested loops are one loop over the
    Cartesian product. *)
Lemma search_product matchdict satnos levels waves log :
  md_SatelliteNumber matchdict = Some satnos →
  md_Level matchdict = Some levels →
  requested_waves to_Angstrom matchdict = Ok waves →
  search TIME_FORMAT strftime to_Angstrom extract_files_meta matchdict log
  = for_each (combinations satnos levels waves) (loop_body matchdict) [] log.
Proof.
  intros Hs Hl Hw. unfold search. unfold bindM at 1, liftR at 1. rewrite Hw.
  unfold bindM at 1, liftR at 1. rewrite Hs. simpl.
  unfold combinations. rewrite for_each_flat_map.
  apply for_each_ext. intros satno metalist log' _.
  unfold bindM at 1, liftR at 1. rewrite Hl. simpl.
  rewrite for_each_flat_map. apply for_each_ext. intros level metalist' log'' _.
  by rewrite for_each_fmap.
Qed.

Lemma product_loop_complete matchdict cs outs metalist log :
  mapR (combination_outcome TIME_FORMAT strftime extract_files_meta matchdict) cs = Ok outs →
  for_each cs (loop_body matchdict) metalist log
  = (Ok (metalist ++ concat outs.*2)%list, (log ++ outs.*1)%list).
Proof.
  revert outs metalist log. induction cs as [|c cs IH]; intros outs metalist log H.
  - injection H as <-. simpl. by rewrite !app_nil_r.
  - rewrite for_each_cons, search_combination_outcome.
    rewrite <- !surjective_pairing.
    cbn [mapR] in H.
    destruct (combination_outcome _ _ _ matchdict c) as [[call records]|e] eqn:Hc;
      cbn [bindR] in H; [ | discriminate ].
    rewrite (combination_outcome_call _ _ _ _ Hc).
    destruct (mapR _ cs) as [outs'|e] eqn:Hcs; cbn [bindR] in H; [ | discriminate ].
    injection H as <-. cbn [bindR].
    rewrite (IH outs') by done. simpl. by rewrite <- !app_assoc.
Qed.

Lemma product_loop_sound matchdict cs metalist log records log' :
  for_each cs (loop_body matchdict) metalist log = (Ok records, log') →
  ∃ outs,
    mapR (combination_outcome TIME_FORMAT strftime extract_files_meta matchdict) cs = Ok outs ∧
    records = (metalist ++ concat outs.*2)%list ∧ log' = (log ++ outs.*1)%list.
Proof.
  revert metalist log. induction cs as [|c cs IH]; intros metalist log H.
  - injection H as <- <-. exists []. simpl. by rewrite !app_nil_r.
  - rewrite for_each_cons, search_combination_outcome in H.
    rewrite <- !surjective_pairing in H.
    cbn [mapR].
    destruct (bound_call matchdict c) as [call|e] eqn:Hb; [ | discriminate ].
    destruct (combination_outcome _ _ _ matchdict c) as [[call' recs]|e] eqn:Hc;
      cbn [bindR] in H |- *; [ | discriminate ].
    rewrite (combination_outcome_call _ _ _ _ Hc) in Hb. injection Hb as ->.
    apply IH in H as (outs & -> & -> & ->).
    eexists. split; [ reflexivity | ]. simpl. by rewrite <- !app_assoc.
Qed.

End SearchFacts.

(** ** The record normalizer: claims *)

(** C1 (the code departs from the claim).  For the level-2 file
    [dr_suvi-l2-ci195_g16_s20190403T235600Z_e20190404T000000Z_...], whose
    grammar exposes [eyear], [emonth] and [eday], the file name encodes the
    end instant 2019-04-04 00:00:00, but the normalizer composes the end
    timestamp from the start date: the record ends on 2019-04-03 00:00:00,
    before it starts. *)
Theorem C1_level2_end_uses_start_date :
  "eyear" ∈ named_fields pattern2 ∧ "emonth" ∈ named_fields pattern2 ∧
  "eday" ∈ named_fields pattern2 ∧
  filename_end_instant midnight_match = Ok (mk_datetime 2019 4 4 0 0 0) ∧
  ∃ r,
    post_search_hook sample_TIME_FORMAT strftime_numeric midnight_match
      (sample_matchdict None [16] ["2"]) = Ok r ∧
    odict_get "Time" r
    = Some (RTime (mk_timerange (mk_datetime 2019 4 3 23 56 0) (mk_datetime 2019 4 3 0 0 0))) ∧
    odict_get "Start Time" r = Some (RStr "2019-04-03 23:56:00") ∧
    odict_get "End Time" r = Some (RStr "2019-04-03 00:00:00").
Proof.
  split; [ by vm_compute; repeat constructor | ].
  split; [ by vm_compute; repeat constructor | ].
  split; [ by vm_compute; repeat constructor | ].
  split; [ by vm_compute | ].
  eexists. split; [ vm_compute; reflexivity | ].
  by vm_compute.
Qed.

(** Whatever the grammar, the end timestamp of a record carries the date
    fields [year], [month], [day] of the match. *)
Lemma post_search_hook_end_date TIME_FORMAT strftime (i : RawMatch) matchdict r :
  post_search_hook TIME_FORMAT strftime i matchdict = Ok r →
  ∃ start end_,
    odict_get "Time" r = Some (RTime (mk_timerange start end_)) ∧
    i !! "year" = Some (PInt (dt_year end_)) ∧
    i !! "month" = Some (PInt (dt_month end_)) ∧
    i !! "day" = Some (PInt (dt_day end_)) ∧
    i !! "ehour" = Some (PInt (dt_hour end_)) ∧
    i !! "eminute" = Some (PInt (dt_minute end_)) ∧
    i !! "esecond" = Some (PInt (dt_second end_)) ∧
    dt_year end_ = dt_year start ∧ dt_month end_ = dt_month start ∧
    dt_day end_ = dt_day start.
Proof.
  intros H. apply post_search_hook_Ok in H.
  destruct H as (y & mo & d & h & mi & s & eh & emi & es & ? & ? & ? & ? & ? & ? & ? & H).
  destruct H as (?&?&?&?&?&?&?&?&?&?&?&?&?&?&?&?& ->).
  do 2 eexists. split; [ reflexivity | ]. simpl. tauto.
Qed.

(** C4 (the code departs from the claim).  Every record has the ten keys
    below in this order, and the instrument, physical observable, source
    and provider are the first entries of the query's lists; but the
    physical observable is filed under the key [Phsyobs], and the record
    has no key [Physobs], the name of the attribute it was read from. *)
Theorem C4_record_keys_misspell_physobs TIME_FORMAT strftime (i : RawMatch) matchdict r :
  post_search_hook TIME_FORMAT strftime i matchdict = Ok r →
  odict_keys r
  = [ "Time"; "Start Time"; "End Time"; "Instrument"; "Phsyobs"; "Source"; "Provider";
      "SatelliteNumber"; "Level"; "Wavelength" ] ∧
  odict_get "Physobs" r = None ∧
  (∃ physobs, first_of "Physobs" (md_Physobs matchdict) = Ok physobs ∧
              odict_get "Phsyobs" r = Some (RStr physobs)) ∧
  (∃ instrument, first_of "Instrument" (md_Instrument matchdict) = Ok instrument ∧
                 odict_get "Instrument" r = Some (RStr instrument)) ∧
  (∃ source, first_of "Source" (md_Source matchdict) = Ok source ∧
             odict_get "Source" r = Some (RStr source)) ∧
  (∃ provider, first_of "Provider" (md_Provider matchdict) = Ok provider ∧
               odict_get "Provider" r = Some (RStr provider)).
Proof.
  intros H. apply post_search_hook_Ok in H.
  destruct H as (y & mo & d & h & mi & s & eh & emi & es & ins & ph & src & prov & H).
  destruct H as (sat & lev & w & H).
  destruct H as (?&?&?&?&?&?&?&?&?& Hi & Hp & Hs & Hv &?&?&?& ->).
  repeat split; try reflexivity; eexists; (split; [ eassumption | reflexivity ]).
Qed.

Lemma C4_record_keys_misspell_physobs_witness :
  ∃ r,
    post_search_hook sample_TIME_FORMAT strftime_numeric midnight_match
      (sample_matchdict None [16] ["2"]) = Ok r ∧
    odict_keys r = record_keys ∧ odict_get "Physobs" r = None.
Proof.
  eexists. split; [ vm_compute; reflexivity | ].
  destruct (C4_record_keys_misspell_physobs sample_TIME_FORMAT strftime_numeric
              midnight_match (sample_matchdict None [16] ["2"]) _ eq_refl) as (Hk & Hn & _).
  split; [ exact Hk | exact Hn ].
Defined.

(** ** The branch selector *)

Lemma format_int_plain (n : Z) : format_int false None n = str_of_int n.
Proof. by destruct n. Qed.

Lemma format_field_plain (n : Z) : format_field "" (FInt n) = Ok (str_of_int n).
Proof. by destruct n. Qed.

Lemma format_field_zero3 (n : Z) :
  format_field "03" (FInt n) = Ok (format_int true (Some 3%nat) n).
Proof. reflexivity. Qed.

Lemma format_field_elem (s : string) :
  String.length s = 2%nat → format_field "2" (FStr s) = Ok s.
Proof.
  intros H. unfold format_field. simpl. unfold format_str. simpl. rewrite H. simpl.
  f_equal. clear H. induction s as [|c s IH]; [ done | ].
  change (String c (s +:+ "") = String c s). by rewrite IH.
Qed.

(** Branch selection and formatting on the dictionary a combination starts
    from. *)
Lemma branch_substitution_reference (satno wave : Z) :
  let elem := if decide (wave = 304) then "he" else "fe" in
  select_branch "1b" wave (base_formdict satno wave)
  = Ok (<["elem" := FStr elem]> (base_formdict satno wave), baseurl1b, pattern1b) ∧
  dom (<["elem" := FStr elem]> (base_formdict satno wave))
  = ({["SatelliteNumber"; "wave"; "elem"]} : gset string) ∧
  format baseurl1b (<["elem" := FStr elem]> (base_formdict satno wave))
  = Ok ("https://data.ngdc.noaa.gov/platforms/solar-space-observing-satellites/goes/goes"
        +:+ str_of_int satno +:+ "/l1b/suvi-l1b-" +:+ elem
        +:+ format_int true (Some 3%nat) wave +:+ "/%Y/%m/%d/OR_SUVI-L1b.*\.fits.gz") ∧
  select_branch "2" wave (base_formdict satno wave)
  = Ok (base_formdict satno wave, baseurl2, pattern2) ∧
  dom (base_formdict satno wave) = ({["SatelliteNumber"; "wave"]} : gset string) ∧
  format baseurl2 (base_formdict satno wave)
  = Ok ("https://data.ngdc.noaa.gov/platforms/solar-space-observing-satellites/goes/goes"
        +:+ str_of_int satno +:+ "/l2/data/suvi-l2-ci" +:+ format_int true (Some 3%nat) wave
        +:+ "/%Y/%m/%d/dr_suvi-l2-ci" +:+ format_int true (Some 3%nat) wave
        +:+ "_g" +:+ str_of_int satno +:+ "_s%Y%m%dT%H%M%SZ_.*\.fits").
Proof.
  intros elem.
  assert (String.length elem = 2%nat) as Hlen by (unfold elem; by case_decide).
  refine (conj _ (conj _ (conj _ (conj _ (conj _ _))))).
  - unfold select_branch. simpl. unfold elem.
    destruct (decide (wave = 304)) as [->|Hne]; simpl.
    + by rewrite insert_insert_eq.
    + apply Z.eqb_neq in Hne. by rewrite Hne.
  - unfold base_formdict. rewrite !dom_insert_L, dom_empty_L. set_solver.
  - unfold base_formdict, baseurl1b. cbn [format].
    rewrite !decide_False by done.
    rewrite lookup_insert_ne, lookup_insert_eq by done.
    rewrite lookup_insert_eq.
    rewrite lookup_insert_ne, lookup_insert_ne, lookup_insert_eq by done.
    cbn [bindR].
    rewrite format_field_plain, format_field_zero3, (format_field_elem elem Hlen).
    reflexivity.
  - reflexivity.
  - unfold base_formdict. rewrite !dom_insert_L, dom_empty_L. set_solver.
  - unfold base_formdict, baseurl2. cbn [format].
    rewrite !decide_False by done.
    rewrite lookup_insert_eq, lookup_insert_ne, lookup_insert_eq by done.
    cbn [bindR]. rewrite format_field_plain, format_field_zero3.
    reflexivity.
Qed.

(** ** The wavelengths searched *)

Lemma int_of_float_angstroms (n : Z) : int_of_float (q_value (angstroms n)) = n.
Proof. unfold int_of_float. simpl. apply Z.quot_1_r. Qed.

Lemma supported_filter (P : Quantity → Prop) `{!∀ q, Decision (P q)} (l : list Z) :
  (λ wave, int_of_float (q_value wave)) <$> filter P (angstroms <$> l)
  = filter (λ n, P (angstroms n)) l.
Proof.
  induction l as [|n l IH]; [ done | ].
  rewrite fmap_cons, !filter_cons.
  case_decide; [ | done ].
  by rewrite fmap_cons, IH, int_of_float_angstroms.
Qed.

Lemma Wavelength_bounds (a b : Quantity) :
  (q_value (wl_min (Wavelength a b)) <= q_value (wl_max (Wavelength a b)))%Q.
Proof.
  unfold Wavelength. destruct (Qle_bool (q_value a) (q_value b)) eqn:H; simpl.
  - by apply Qle_bool_iff.
  - apply Qlt_le_weak, Qnot_le_lt. intros Hle. apply Qle_bool_iff in Hle. congruence.
Qed.

Lemma Wavelength_idem (a b : Quantity) :
  Wavelength (wl_min (Wavelength a b)) (wl_max (Wavelength a b)) = Wavelength a b.
Proof.
  pose proof (Wavelength_bounds a b) as H. apply Qle_bool_iff in H.
  unfold Wavelength at 1. by rewrite H; destruct (Wavelength a b).
Qed.

Lemma Wavelength_ordered (a b : Quantity) :
  (q_value a <= q_value b)%Q → Wavelength a b = mk_wavelength a b.
Proof. intros H. apply Qle_bool_iff in H. unfold Wavelength. by rewrite H. Qed.

Lemma wavelength_contains_iff r wave :
  wavelength_contains r wave = true
  ↔ (q_value (wl_min r) <= q_value wave)%Q ∧ (q_value wave <= q_value (wl_max r))%Q.
Proof.
  unfold wavelength_contains. rewrite andb_true_iff, !Qle_bool_iff. tauto.
Qed.

Section Waves.

Variable to_Angstrom : Quantity → Result Quantity.

Lemma requested_waves_None matchdict :
  md_Wavelength matchdict = None →
  requested_waves to_Angstrom matchdict = Ok supported_values.
Proof. unfold requested_waves. by intros ->. Qed.

Lemma requested_waves_Some matchdict req wmin wmax :
  md_Wavelength matchdict = Some req →
  to_Angstrom (wl_min req) = Ok wmin →
  to_Angstrom (wl_max req) = Ok wmax →
  requested_waves to_Angstrom matchdict
  = Ok (filter (λ n, wavelength_contains (Wavelength wmin wmax) (angstroms n) = true)
          supported_values).
Proof.
  unfold requested_waves. intros -> -> ->. cbn [bindR]. f_equal.
  change supported_waves with (angstroms <$> supported_values).
  exact (supported_filter (λ wave, wavelength_contains (Wavelength wmin wmax) wave = true)
           supported_values).
Qed.

(** The list of wavelengths under a constraint whose endpoints convert. *)
Lemma requested_waves_in_converted_range matchdict req wmin wmax :
  md_Wavelength matchdict = Some req →
  to_Angstrom (wl_min req) = Ok wmin →
  to_Angstrom (wl_max req) = Ok wmax →
  to_Angstrom wmin = Ok wmin →
  to_Angstrom wmax = Ok wmax →
  ∃ waves,
    requested_waves to_Angstrom matchdict = Ok waves ∧
    (∀ w, w ∈ waves ↔
          w ∈ supported_values ∧
          (q_value (wl_min (Wavelength wmin wmax)) <= inject_Z w)%Q ∧
          (inject_Z w <= q_value (wl_max (Wavelength wmin wmax)))%Q) ∧
    requested_waves to_Angstrom
      (with_Wavelength (Some (Wavelength wmin wmax)) matchdict) = Ok waves.
Proof.
  intros Hreq Hmin Hmax Hmin' Hmax'.
  eexists. split; [ by apply (requested_waves_Some _ req wmin wmax) | ]. split.
  - intros w. rewrite list_elem_of_filter, wavelength_contains_iff. simpl. tauto.
  - assert (∃ lo hi, Wavelength wmin wmax = mk_wavelength lo hi ∧
                     to_Angstrom lo = Ok lo ∧ to_Angstrom hi = Ok hi) as (lo & hi & E & Hlo & Hhi).
    { unfold Wavelength. destruct (Qle_bool _ _); eauto 6. }
    rewrite (requested_waves_Some _ (Wavelength wmin wmax) lo hi);
      [ | reflexivity | by rewrite E | by rewrite E ].
    replace (Wavelength lo hi) with (Wavelength wmin wmax); [ done | ].
    rewrite <- (Wavelength_idem wmin wmax). by rewrite E.
Qed.

End Waves.

(** ** The fan-out driver: claims *)

Lemma post_search_hook_with_Wavelength TIME_FORMAT strftime wl i matchdict :
  post_search_hook TIME_FORMAT strftime i (with_Wavelength wl matchdict)
  = post_search_hook TIME_FORMAT strftime i matchdict.
Proof. reflexivity. Qed.

Lemma normalize_all_with_Wavelength TIME_FORMAT strftime wl filesmeta matchdict metalist :
  normalize_all TIME_FORMAT strftime filesmeta (with_Wavelength wl matchdict) metalist
  = normalize_all TIME_FORMAT strftime filesmeta matchdict metalist.
Proof.
  revert metalist. induction filesmeta as [|i rest IH]; intros metalist; [ done | ].
  cbn [normalize_all]. rewrite post_search_hook_with_Wavelength.
  destruct (post_search_hook _ _ i matchdict); cbn [bindR]; [ apply IH | done ].
Qed.

Section SearchClaims.

Variable TIME_FORMAT : string.
Variable strftime : datetime → string → string.
Variable to_Angstrom : Quantity → Result Quantity.
Variable extract_files_meta : string → TimeRange → template → Result (list RawMatch).

Abbreviation search_ := (search TIME_FORMAT strftime to_Angstrom extract_files_meta).
Abbreviation outcome_ :=
  (combination_outcome TIME_FORMAT strftime extract_files_meta).

Lemma search_unfold matchdict log :
  search_ matchdict log
  = match requested_waves to_Angstrom matchdict with
    | Ok all_waves =>
        bindM (liftR (iter (md_SatelliteNumber matchdict)))
          (λ satnos,
             for_each satnos (λ satno metalist,
               run levels := liftR (iter (md_Level matchdict)) in
               for_each levels (λ level metalist,
                 for_each all_waves (λ wave metalist,
                   search_combination TIME_FORMAT strftime extract_files_meta
                     matchdict satno level wave metalist) metalist) metalist) [])
          log
    | Raise e => (Raise e, log)
    end.
Proof.
  unfold search. unfold bindM at 1, liftR at 1.
  by destruct (requested_waves to_Angstrom matchdict).
Qed.

(** The wavelength constraint reaches [search] through the list of
    wavelengths only. *)
Lemma search_with_Wavelength wl matchdict log :
  requested_waves to_Angstrom (with_Wavelength wl matchdict)
  = requested_waves to_Angstrom matchdict →
  search_ (with_Wavelength wl matchdict) log = search_ matchdict log.
Proof.
  intros Hw. rewrite !search_unfold, Hw.
  destruct (requested_waves to_Angstrom matchdict) as [waves|e]; [ | done ].
  cbn [md_SatelliteNumber md_Level with_Wavelength].
  apply bindM_ext. intros satnos log1.
  apply for_each_ext. intros satno m1 log2 _.
  apply bindM_ext. intros levels log3.
  apply for_each_ext. intros level m2 log4 _.
  apply for_each_ext. intros wave m3 log5 _.
  unfold search_combination. apply bindM_ext. intros [[formdict baseurl] pattern] log6.
  apply bindM_ext. intros urlpattern log7. cbn [md_Time with_Wavelength].
  apply bindM_ext. intros timerange log8.
  apply bindM_ext. intros filesmeta log9.
  unfold liftR. by rewrite normalize_all_with_Wavelength.
Qed.

(** Without a wavelength constraint the list is the six supported values,
    and [search] runs as it does under a range that covers them. *)
Lemma search_no_wavelength_covering_range matchdict req wmin wmax log :
  md_Wavelength matchdict = None →
  to_Angstrom (wl_min req) = Ok wmin →
  to_Angstrom (wl_max req) = Ok wmax →
  (q_value wmin <= 94)%Q →
  (304 <= q_value wmax)%Q →
  requested_waves to_Angstrom matchdict = Ok [94; 131; 171; 195; 284; 304] ∧
  search_ (with_Wavelength (Some req) matchdict) log = search_ matchdict log.
Proof.
  intros Hnone Hmin Hmax Hlo Hhi.
  split; [ by apply requested_waves_None | ].
  apply search_with_Wavelength.
  rewrite (requested_waves_None _ matchdict Hnone).
  rewrite (requested_waves_Some _ (with_Wavelength (Some req) matchdict)
             req wmin wmax eq_refl Hmin Hmax).
  f_equal.
  rewrite Wavelength_ordered
    by (apply (Qle_trans _ 94); [ exact Hlo | ];
        apply (Qle_trans _ 304); [ by vm_compute | exact Hhi ]).
  assert (∀ n, n ∈ supported_values →
               wavelength_contains (mk_wavelength wmin wmax) (angstroms n) = true) as Hall.
  { intros n Hn. apply wavelength_contains_iff. simpl.
    assert (94 <= n <= 304) as [H1 H2].
    { unfold supported_values in Hn.
      repeat (apply elem_of_cons in Hn as [->|Hn]; [ lia | ]).
      by apply elem_of_nil in Hn. }
    split.
    - apply (Qle_trans _ 94); [ exact Hlo | ].
      change 94%Q with (inject_Z 94). by rewrite <- Zle_Qle.
    - apply (Qle_trans _ 304); [ | exact Hhi ].
      change 304%Q with (inject_Z 304). by rewrite <- Zle_Qle. }
  unfold supported_values in *.
  rewrite !filter_cons, filter_nil.
  rewrite !decide_True by (apply Hall; set_solver).
  reflexivity.
Qed.

(** C10.  When the requested range holds none of the six supported
    wavelengths and both other axes are present, [search] returns the empty
    result, raises nothing and calls the scraper not once. *)
Theorem C10_empty_wavelength_list_no_scrape matchdict req wmin wmax satnos levels log :
  md_Wavelength matchdict = Some req →
  to_Angstrom (wl_min req) = Ok wmin →
  to_Angstrom (wl_max req) = Ok wmax →
  (∀ wave, wave ∈ supported_waves →
           wavelength_contains (Wavelength wmin wmax) wave = false) →
  md_SatelliteNumber matchdict = Some satnos →
  md_Level matchdict = Some levels →
  requested_waves to_Angstrom matchdict = Ok [] ∧
  search_ matchdict log = (Ok [], log).
Proof.
  intros Hreq Hmin Hmax Hnone Hs Hl.
  assert (requested_waves to_Angstrom matchdict = Ok []) as Hw.
  { rewrite (requested_waves_Some _ _ req wmin wmax Hreq Hmin Hmax). f_equal.
    apply elem_of_nil_inv. intros n [Hn Hin]%list_elem_of_filter.
    rewrite Hnone in Hn; [ discriminate | ].
    by apply list_elem_of_fmap_2. }
  split; [ exact Hw | ].
  rewrite (search_product _ _ _ _ _ satnos levels [] log Hs Hl Hw).
  by rewrite combinations_no_waves.
Qed.

Lemma select_branch_unsupported level wave formdict :
  level ≠ "1b" → level ≠ "2" →
  select_branch level wave formdict
  = Raise (ValueError ("Level " +:+ level +:+ " is not supported.")).
Proof. intros H1 H2. unfold select_branch. by rewrite !decide_False. Qed.

(** C6.  With both axes present, if every combination of the Cartesian
    product (satellite numbers, levels, wavelengths) selects its branch,
    scrapes and normalizes without raising, then [search] calls the scraper
    exactly once per combination, in product order and with that
    combination's bound skeleton and grammar, and returns the records of all
    combinations flattened into one list. *)
Theorem C6_fan_out_over_product matchdict satnos levels waves outs log :
  md_SatelliteNumber matchdict = Some satnos →
  md_Level matchdict = Some levels →
  requested_waves to_Angstrom matchdict = Ok waves →
  mapR (outcome_ matchdict) (combinations satnos levels waves) = Ok outs →
  search_ matchdict log = (Ok (concat outs.*2), (log ++ outs.*1)%list) ∧
  Forall2 (λ c out, bound_call matchdict c = Ok out.1)
    (combinations satnos levels waves) outs ∧
  length outs.*1 = (length satnos * length levels * length waves)%nat.
Proof.
  intros Hs Hl Hw Houts. split; [ | split ].
  - rewrite (search_product _ _ _ _ _ satnos levels waves log Hs Hl Hw).
    by rewrite (product_loop_complete _ _ _ _ _ outs [] log Houts).
  - apply mapR_Forall2 in Houts. eapply Forall2_impl; [ | exact Houts ].
    intros c [call records] Hc. by apply combination_outcome_call in Hc.
  - rewrite length_fmap, (mapR_length _ _ _ Houts). apply combinations_length.
Qed.

(** Every record [search] returns was made by the normalizer from a raw
    match. *)
Lemma search_records_from_hook matchdict log records log' :
  search_ matchdict log = (Ok records, log') →
  ∀ r, r ∈ records → ∃ i, post_search_hook TIME_FORMAT strftime i matchdict = Ok r.
Proof.
  set (P := λ m : list Record_,
         ∀ r, r ∈ m → ∃ i, post_search_hook TIME_FORMAT strftime i matchdict = Ok r).
  rewrite search_unfold.
  destruct (requested_waves to_Angstrom matchdict) as [waves|e]; [ | discriminate ].
  unfold bindM at 1, liftR at 1.
  destruct (iter (md_SatelliteNumber matchdict)) as [satnos|e]; [ | discriminate ].
  intros H. apply (for_each_inv P) in H; [ exact H | | by intros r ?%elem_of_nil ].
  clear. intros satno m1 l1 m1' l1' H Hm1.
  unfold bindM at 1, liftR at 1 in H.
  destruct (iter (md_Level matchdict)) as [levels|e]; [ | discriminate ].
  apply (for_each_inv P) in H; [ exact H | | exact Hm1 ].
  clear. intros level m2 l2 m2' l2' H Hm2.
  apply (for_each_inv P) in H; [ exact H | | exact Hm2 ].
  clear. intros wave m3 l3 m3' l3' H Hm3.
  rewrite search_combination_outcome in H.
  destruct (bound_call matchdict (satno, level, wave)) as [call|e]; [ | discriminate ].
  destruct (outcome_ matchdict (satno, level, wave)) as [[call' recs]|e] eqn:Hc;
    cbn [bindR] in H; [ | discriminate ].
  injection H as <- _. intros r [Hr|Hr]%elem_of_app; [ by apply Hm3 | ].
  unfold combination_outcome in Hc. repeat step_bind Hc. injection Hc as _ <-.
  match goal with
  | E : mapR _ _ = Ok _ |- _ => apply mapR_Forall2 in E; rename E into HF
  end.
  simpl in Hr. apply list_elem_of_lookup in Hr as [k Hk].
  destruct (Forall2_lookup_r _ _ _ _ _ HF Hk) as (i & _ & Hi). eauto.
Qed.

(** C9.  In every record [search] returns, the [Wavelength] field is the
    integer parsed from the file name multiplied by the angstrom unit: a
    quantity in angstrom. *)
Theorem C9_wavelength_is_angstrom_quantity matchdict log records log' :
  search_ matchdict log = (Ok records, log') →
  ∀ r, r ∈ records →
    ∃ (i : RawMatch) (n : Z),
      post_search_hook TIME_FORMAT strftime i matchdict = Ok r ∧
      i !! "Wavelength" = Some (PInt n) ∧
      odict_get "Wavelength" r = Some (RQuantity (angstroms n)) ∧
      q_unit (angstroms n) = Angstrom.
Proof.
  intros H r Hr.
  destruct (search_records_from_hook _ _ _ _ H r Hr) as [i Hi].
  pose proof (post_search_hook_Ok _ _ _ _ _ Hi) as Hinv.
  destruct Hinv as (y & mo & d & h & mi & s & eh & emi & es & ins & ph & src & prov & Hinv).
  destruct Hinv as (sat & lev & w & Hinv).
  destruct Hinv as (?&?&?&?&?&?&?&?&?&?&?&?&?&?&?& Hw & ->).
  exists i, w. repeat split; done.
Qed.

(** C2, as amended.  When the level selection holds a value other than
    [1b] and [2] and neither the satellite numbers nor the wavelengths to
    search are an empty list, [search] raises and returns no record. *)
Theorem C2_unsupported_level_raises matchdict levels bad log :
  md_Level matchdict = Some levels →
  bad ∈ levels → bad ≠ "1b" → bad ≠ "2" →
  md_SatelliteNumber matchdict ≠ Some [] →
  requested_waves to_Angstrom matchdict ≠ Ok [] →
  ∃ e, (search_ matchdict log).1 = Raise e.
Proof.
  intros Hl Hbad H1 H2 Hs Hw.
  destruct (requested_waves to_Angstrom matchdict) as [waves|e] eqn:Ew;
    [ | rewrite search_unfold, Ew; eauto ].
  destruct (md_SatelliteNumber matchdict) as [satnos|] eqn:Es;
    [ | rewrite search_unfold, Ew; unfold bindM, liftR; rewrite Es; simpl; eauto ].
  destruct satnos as [|s0 satnos]; [ done | ].
  destruct waves as [|w0 waves]; [ done | ].
  rewrite (search_product _ _ _ _ _ _ _ _ log Es Hl Ew).
  destruct (for_each _ _ _ _) as [[records|e] log'] eqn:H; [ exfalso | simpl; eauto ].
  apply product_loop_sound in H as (outs & Houts & _).
  assert ((s0, bad, w0) ∈ combinations (s0 :: satnos) levels (w0 :: waves)) as Hin
    by (apply elem_of_combinations; [ left | done | left ]).
  destruct (mapR_elem_Ok _ _ _ _ Houts Hin) as ([call recs] & Hc & _).
  apply combination_outcome_call in Hc. unfold bound_call in Hc.
  by rewrite select_branch_unsupported in Hc.
Qed.

End SearchClaims.

Lemma C10_empty_wavelength_list_no_scrape_witness :
  search sample_TIME_FORMAT strftime_numeric sample_to_Angstrom
    (archive_scraper scenario_archive)
    (sample_matchdict (Some (Wavelength (angstroms 1000) (angstroms 2000))) [13; 15] ["1b"; "2"])
    []
  = (Ok [], []).
Proof.
  refine (proj2 (C10_empty_wavelength_list_no_scrape sample_TIME_FORMAT strftime_numeric
                   sample_to_Angstrom (archive_scraper scenario_archive)
                   (sample_matchdict (Some (Wavelength (angstroms 1000) (angstroms 2000)))
                      [13; 15] ["1b"; "2"])
                   (Wavelength (angstroms 1000) (angstroms 2000))
                   (angstroms 1000) (angstroms 2000) [13; 15] ["1b"; "2"] []
                   eq_refl eq_refl eq_refl _ eq_refl eq_refl)).
  intros wave Hwave. unfold supported_waves in Hwave.
  repeat (apply elem_of_cons in Hwave as [->|Hwave]; [ reflexivity | ]).
  by apply elem_of_nil in Hwave.
Defined.

(** C2, as stated, fails: a query for the unsupported level [3] whose
    wavelength range holds no supported wavelength returns the empty result
    and raises nothing. *)
Lemma C2_counterexample :
  md_Level (sample_matchdict (Some (Wavelength (angstroms 1000) (angstroms 2000))) [16] ["3"])
  = Some ["3"] ∧
  "3" ≠ "1b" ∧ "3" ≠ "2" ∧
  search sample_TIME_FORMAT strftime_numeric sample_to_Angstrom
    (archive_scraper scenario_archive)
    (sample_matchdict (Some (Wavelength (angstroms 1000) (angstroms 2000))) [16] ["3"]) []
  = (Ok [], []).
Proof. repeat split; try done. Qed.

Lemma C2_unsupported_level_raises_witness :
  ∃ e,
    (search sample_TIME_FORMAT strftime_numeric sample_to_Angstrom
       (archive_scraper scenario_archive)
       (sample_matchdict None [13; 15] ["2"; "3"]) []).1 = Raise e.
Proof.
  refine (C2_unsupported_level_raises sample_TIME_FORMAT strftime_numeric
            sample_to_Angstrom (archive_scraper scenario_archive)
            (sample_matchdict None [13; 15] ["2"; "3"]) ["2"; "3"] "3" []
            eq_refl _ _ _ _ _).
  - right. left.
  - discriminate.
  - discriminate.
  - simpl. discriminate.
  - vm_compute. discriminate.
Defined.

Lemma C6_fan_out_over_product_witness :
  search sample_TIME_FORMAT strftime_numeric sample_to_Angstrom
    (archive_scraper scenario_archive) scenario_matchdict []
  = (Ok (concat scenario_outcomes.*2), scenario_outcomes.*1) ∧
  length (concat scenario_outcomes.*2) = 4%nat ∧
  length scenario_outcomes.*1 = 4%nat.
Proof.
  destruct (C6_fan_out_over_product sample_TIME_FORMAT strftime_numeric
              sample_to_Angstrom (archive_scraper scenario_archive)
              scenario_matchdict [13; 15] ["2"] [195; 284] scenario_outcomes []
              eq_refl eq_refl) as (Hsearch & _ & Hlen).
  - by vm_compute.
  - by vm_compute.
  - split; [ exact Hsearch | ]. split; [ by vm_compute | exact Hlen ].
Defined.

Lemma C9_wavelength_is_angstrom_quantity_witness :
  ∃ (i : RawMatch) (n : Z),
    post_search_hook sample_TIME_FORMAT strftime_numeric i scenario_matchdict
    = Ok scenario_first_record ∧
    i !! "Wavelength" = Some (PInt n) ∧
    odict_get "Wavelength" scenario_first_record = Some (RQuantity (angstroms n)) ∧
    q_unit (angstroms n) = Angstrom.
Proof.
  apply (C9_wavelength_is_angstrom_quantity sample_TIME_FORMAT strftime_numeric
           sample_to_Angstrom (archive_scraper scenario_archive)
           scenario_matchdict [] (concat scenario_outcomes.*2) scenario_outcomes.*1).
  - by vm_compute.
  - vm_compute. left.
Defined.

(** ** Listing failures *)

(** C8, as stated, fails, whichever way the scraper treats a unit that
    fails to list.  Over five days of which days 2 and 4 fail and days 1, 3
    and 5 hold one matching entry each: when the scraper collects the two
    failed units and goes on, [search] returns the three records alone,
    the very result it returns when days 2 and 4 are empty directories, so
    nothing indicates the failures (and five failed days give the empty
    result of five empty days); when the scraper raises instead, [search]
    raises with no record, although three units listed. *)
Lemma C8_counterexample :
  report_failed (directory_scraper day_units listing_two_failed entry_match
                   (level2_url 16 195) five_days pattern2) = ["2"; "4"] ∧
  length (report_matches (directory_scraper day_units listing_two_failed entry_match
                            (level2_url 16 195) five_days pattern2)) = 3%nat ∧
  report_failed (directory_scraper day_units (failures_as_empty listing_two_failed)
                   entry_match (level2_url 16 195) five_days pattern2) = [] ∧
  (∃ r1 r3 r5 log,
     search sample_TIME_FORMAT strftime_numeric sample_to_Angstrom
       (scraper_filesmeta day_units listing_two_failed entry_match) five_days_matchdict []
     = (Ok [r1; r3; r5], log) ∧
     search sample_TIME_FORMAT strftime_numeric sample_to_Angstrom
       (scraper_filesmeta day_units (failures_as_empty listing_two_failed) entry_match)
       five_days_matchdict []
     = (Ok [r1; r3; r5], log)) ∧
  (∃ log,
     search sample_TIME_FORMAT strftime_numeric sample_to_Angstrom
       (scraper_filesmeta day_units listing_all_failed entry_match) five_days_matchdict []
     = (Ok [], log) ∧
     search sample_TIME_FORMAT strftime_numeric sample_to_Angstrom
       (scraper_filesmeta day_units listing_all_empty entry_match) five_days_matchdict []
     = (Ok [], log)) ∧
  (search sample_TIME_FORMAT strftime_numeric sample_to_Angstrom
     (scraper_raising day_units listing_two_failed entry_match) five_days_matchdict []).1
  = Raise (ListingError "2").
Proof.
  split; [ by vm_compute | ].
  split; [ by vm_compute | ].
  split; [ by vm_compute | ].
  split; [ do 4 eexists; split; vm_compute; reflexivity | ].
  split; [ eexists; split; vm_compute; reflexivity | ].
  by vm_compute.
Qed.

(** * Further properties of the code *)

(** ** The record normalizer: success, errors and what it reads *)

Lemma datetime_of_ints_valid y mo d h mi s t :
  datetime_of_ints y mo d h mi s = Ok t → valid_datetime t.
Proof.
  unfold datetime_of_ints, valid_datetime.
  repeat match goal with
         | |- context [if negb (?a && ?b) then _ else _] =>
             destruct a eqn:?; destruct b eqn:?; simpl; try discriminate
         end.
  intros [= <-]. simpl. lia.
Qed.

Lemma datetime_of_ints_complete t :
  valid_datetime t →
  datetime_of_ints (dt_year t) (dt_month t) (dt_day t) (dt_hour t) (dt_minute t) (dt_second t)
  = Ok t.
Proof.
  intros (Hy & Hm & Hd & Hh & Hmi & Hs). unfold datetime_of_ints.
  repeat match goal with
         | |- context [if negb (?a && ?b) then _ else _] =>
             replace a with true by (symmetry; apply Z.leb_le; lia);
             replace b with true by (symmetry; apply Z.leb_le; lia); simpl
         end.
  by destruct t.
Qed.

Lemma datetime_new_KeyError a b c d e f k : datetime_new a b c d e f ≠ Raise (KeyError k).
Proof.
  unfold datetime_new, datetime_of_ints.
  destruct a, b, c, d, e, f; simpl; try discriminate.
  repeat match goal with
         | |- context [if ?b then _ else _] => destruct b; try discriminate
         end.
Qed.

Lemma first_of_KeyError key entry k :
  first_of key entry = Raise (KeyError k) → k = key ∧ entry = None.
Proof. destruct entry as [[|x l]|]; simpl; intros [=]; auto. Qed.

Lemma getitem_Raise (i : RawMatch) key e :
  getitem i key = Raise e → e = KeyError key ∧ i !! key = None.
Proof. unfold getitem. destruct (i !! key); intros [=]; auto. Qed.

Lemma times_angstrom_KeyError v k : times_angstrom v ≠ Raise (KeyError k).
Proof. by destruct v. Qed.

Section NormalizerMore.

Variable TIME_FORMAT : string.
Variable strftime : datetime → string → string.

(** X1.  The normalizer succeeds on every raw match that has the twelve
    fields it reads, with integers forming a calendar instant for the start
    and for the end and an integer wavelength, when the query names an
    instrument, a physical observable, a source and a provider; the record
    is the one written out. *)
Theorem post_search_hook_complete (i : RawMatch) matchdict
    start eh emi es instrument physobs source provider satno level w :
  i !! "year" = Some (PInt (dt_year start)) →
  i !! "month" = Some (PInt (dt_month start)) →
  i !! "day" = Some (PInt (dt_day start)) →
  i !! "hour" = Some (PInt (dt_hour start)) →
  i !! "minute" = Some (PInt (dt_minute start)) →
  i !! "second" = Some (PInt (dt_second start)) →
  i !! "ehour" = Some (PInt eh) →
  i !! "eminute" = Some (PInt emi) →
  i !! "esecond" = Some (PInt es) →
  i !! "SatelliteNumber" = Some satno →
  i !! "Level" = Some level →
  i !! "Wavelength" = Some (PInt w) →
  valid_datetime start →
  0 ≤ eh ≤ 23 → 0 ≤ emi ≤ 59 → 0 ≤ es ≤ 59 →
  first_of "Instrument" (md_Instrument matchdict) = Ok instrument →
  first_of "Physobs" (md_Physobs matchdict) = Ok physobs →
  first_of "Source" (md_Source matchdict) = Ok source →
  first_of "Provider" (md_Provider matchdict) = Ok provider →
  let end_ := mk_datetime (dt_year start) (dt_month start) (dt_day start) eh emi es in
  post_search_hook TIME_FORMAT strftime i matchdict
  = Ok [ ("Time", RTime (mk_timerange start end_));
         ("Start Time", RStr (strftime start TIME_FORMAT));
         ("End Time", RStr (strftime end_ TIME_FORMAT));
         ("Instrument", RStr instrument);
         ("Phsyobs", RStr physobs);
         ("Source", RStr source);
         ("Provider", RStr provider);
         ("SatelliteNumber", RField satno);
         ("Level", RField level);
         ("Wavelength", RQuantity (angstroms w)) ].
Proof.
  intros Hy Hmo Hd Hh Hmi Hs Heh Hemi Hes Hsat Hlev Hw Hvalid Hh' Hmi' Hs'
         Hins Hph Hsrc Hprov end_.
  assert (valid_datetime end_) as Hvalid'
    by (unfold valid_datetime in *; simpl; lia).
  unfold post_search_hook, getitem.
  rewrite Hy, Hmo, Hd, Hh, Hmi, Hs, Heh, Hemi, Hes, Hsat, Hlev, Hw.
  cbn [bindR datetime_new as_int].
  rewrite (datetime_of_ints_complete start Hvalid).
  pose proof (datetime_of_ints_complete end_ Hvalid') as He. simpl in He.
  cbn [bindR]. rewrite He. cbn [bindR].
  rewrite Hins, Hph, Hsrc, Hprov. reflexivity.
Qed.

(** X2.  Every record holds calendar instants: the start and the end of
    its time range have a month in 1..12, a day of that month, an hour
    below 24 and minutes and seconds below 60. *)
Theorem post_search_hook_valid_instants (i : RawMatch) matchdict r :
  post_search_hook TIME_FORMAT strftime i matchdict = Ok r →
  ∃ start end_,
    odict_get "Time" r = Some (RTime (mk_timerange start end_)) ∧
    valid_datetime start ∧ valid_datetime end_.
Proof.
  unfold post_search_hook. intros H.
  do 7 step_bind H.
  do 7 step_bind H.
  repeat step_bind H. injection H as <-.
  repeat match goal with
         | E : datetime_new _ _ _ _ _ _ = Ok _ |- _ =>
             apply datetime_new_Ok in E;
             destruct E as (?&?&?&?&?&?&?&?&?&?&?&?&E);
             apply datetime_of_ints_valid in E
         end.
  eauto.
Qed.

(** X3.  A [KeyError] of the normalizer names a key that is absent: one of
    the twelve file fields missing from the raw match, or one of the four
    metadata keys missing from the match dictionary. *)
Theorem post_search_hook_KeyError (i : RawMatch) matchdict k :
  post_search_hook TIME_FORMAT strftime i matchdict = Raise (KeyError k) →
  (k ∈ hook_keys ∧ i !! k = None) ∨
  (k = "Instrument" ∧ md_Instrument matchdict = None) ∨
  (k = "Physobs" ∧ md_Physobs matchdict = None) ∨
  (k = "Source" ∧ md_Source matchdict = None) ∨
  (k = "Provider" ∧ md_Provider matchdict = None).
Proof.
  unfold post_search_hook. intros H.
  repeat match type of H with
         | bindR ?m _ = Raise _ =>
             let E := fresh "E" in
             destruct m eqn:E; cbn [bindR] in H;
             [ | injection H as ->;
                 first
                   [ apply getitem_Raise in E as [[= ->] E];
                     left; split; [ unfold hook_keys; set_solver | exact E ]
                   | by apply datetime_new_KeyError in E
                   | apply first_of_KeyError in E as [-> E]; tauto
                   | by apply times_angstrom_KeyError in E ] ]
         end.
  discriminate H.
Qed.

(** X4.  The normalizer reads the raw match at its twelve keys only: two
    raw matches that agree there give the same outcome, so the end date
    fields [eyear], [emonth], [eday] of the level-2 grammar have no
    influence on the record. *)
Theorem post_search_hook_reads_hook_keys (i i' : RawMatch) matchdict :
  (∀ k, k ∈ hook_keys → i !! k = i' !! k) →
  post_search_hook TIME_FORMAT strftime i matchdict
  = post_search_hook TIME_FORMAT strftime i' matchdict.
Proof.
  intros H. unfold post_search_hook, getitem.
  rewrite !(H _) by (unfold hook_keys; set_solver).
  reflexivity.
Qed.

End NormalizerMore.

Lemma named_fields_pattern1b :
  named_fields pattern1b
  = [ "SatelliteNumber"; "Level"; "Wavelength"; "year"; "month"; "day";
      "hour"; "minute"; "second"; "ehour"; "eminute"; "esecond" ].
Proof. by vm_compute. Qed.

Lemma named_fields_pattern2 :
  named_fields pattern2
  = [ "SatelliteNumber"; "Level"; "Wavelength"; "year"; "month"; "day";
      "hour"; "minute"; "second"; "eyear"; "emonth"; "eday";
      "ehour"; "eminute"; "esecond" ].
Proof. by vm_compute. Qed.

(** X5.  A raw match that has every field named by the level-1b grammar,
    or every field named by the level-2 grammar, never makes the normalizer
    raise a [KeyError] for a file field: the only keys it can miss are the
    metadata keys of the query. *)
Theorem grammar_fields_cover_the_normalizer TIME_FORMAT strftime
    (pattern : template) (i : RawMatch) matchdict k :
  pattern = pattern1b ∨ pattern = pattern2 →
  (∀ f, f ∈ named_fields pattern → is_Some (i !! f)) →
  post_search_hook TIME_FORMAT strftime i matchdict = Raise (KeyError k) →
  k ∈ metadata_keys.
Proof.
  intros Hp Hfields.
  assert (∀ f, f ∈ hook_keys → is_Some (i !! f)) as Hkeys.
  { intros f Hf. apply Hfields.
    destruct Hp as [-> | ->];
      [ rewrite named_fields_pattern1b | rewrite named_fields_pattern2 ];
      unfold hook_keys in Hf;
      repeat (apply elem_of_cons in Hf as [->|Hf]; [ repeat constructor | ]);
      by apply elem_of_nil in Hf. }
  clear Hp Hfields. unfold post_search_hook, getitem.
  repeat match goal with
         | |- context [i !! ?key] =>
             let v := fresh "v" in
             let E := fresh "E" in
             destruct (Hkeys key ltac:(unfold hook_keys; set_solver)) as [v E];
             rewrite E; clear E
         end.
  cbn [bindR]. intros H.
  repeat match type of H with
         | bindR ?m _ = Raise _ =>
             let E := fresh "E" in
             destruct m eqn:E; cbn [bindR] in H;
             [ | injection H as ->;
                 first
                   [ by apply datetime_new_KeyError in E
                   | apply first_of_KeyError in E as [-> E];
                     unfold metadata_keys; set_solver
                   | by apply times_angstrom_KeyError in E ] ]
         end.
  discriminate H.
Qed.

Lemma grammar_fields_cover_the_normalizer_witness :
  "Instrument" ∈ metadata_keys.
Proof.
  apply (grammar_fields_cover_the_normalizer sample_TIME_FORMAT strftime_numeric pattern2
           midnight_match
           {| md_Time := None; md_Wavelength := None; md_SatelliteNumber := None;
              md_Level := None; md_Instrument := None; md_Physobs := None;
              md_Source := None; md_Provider := None |}).
  - by right.
  - intros f Hf. rewrite named_fields_pattern2 in Hf.
    repeat (apply elem_of_cons in Hf as [->|Hf]; [ vm_compute; eauto | ]).
    by apply elem_of_nil in Hf.
  - by vm_compute.
Defined.

Lemma post_search_hook_complete_witness :
  ∃ r,
    post_search_hook sample_TIME_FORMAT strftime_numeric
      (level1b_match 16 171 (mk_datetime 2019 4 3 12 0 0) 12 0 1)
      (sample_matchdict None [16] ["1b"]) = Ok r ∧
    odict_get "End Time" r = Some (RStr "2019-04-03 12:00:01").
Proof.
  eexists. split.
  - apply (post_search_hook_complete sample_TIME_FORMAT strftime_numeric
             (level1b_match 16 171 (mk_datetime 2019 4 3 12 0 0) 12 0 1)
             (sample_matchdict None [16] ["1b"])
             (mk_datetime 2019 4 3 12 0 0) 12 0 1 "SUVI" "flux" "GOES" "NOAA"
             (PInt 16) (PStr "1b") 171);
      try reflexivity; try lia.
    unfold valid_datetime, days_in_month. simpl. lia.
  - by vm_compute.
Defined.

Lemma post_search_hook_valid_instants_witness :
  ∃ start end_,
    valid_datetime start ∧ valid_datetime end_ ∧
    dt_day start = 3 ∧ dt_day end_ = 3.
Proof.
  destruct (post_search_hook_valid_instants sample_TIME_FORMAT strftime_numeric
              midnight_match (sample_matchdict None [16] ["2"]) _ eq_refl)
    as (start & end_ & Ht & Hs & He).
  injection Ht as <- <-. eexists _, _. split; [ exact Hs | ]. split; [ exact He | ].
  split; reflexivity.
Defined.

Lemma post_search_hook_KeyError_witness :
  ("ehour" ∈ hook_keys ∧ (delete "ehour" midnight_match : RawMatch) !! "ehour" = None) ∨
  ("ehour" = "Instrument" ∧ md_Instrument (sample_matchdict None [16] ["2"]) = None) ∨
  ("ehour" = "Physobs" ∧ md_Physobs (sample_matchdict None [16] ["2"]) = None) ∨
  ("ehour" = "Source" ∧ md_Source (sample_matchdict None [16] ["2"]) = None) ∨
  ("ehour" = "Provider" ∧ md_Provider (sample_matchdict None [16] ["2"]) = None).
Proof.
  apply (post_search_hook_KeyError sample_TIME_FORMAT strftime_numeric
           (delete "ehour" midnight_match) (sample_matchdict None [16] ["2"]) "ehour").
  by vm_compute.
Defined.

Lemma post_search_hook_reads_hook_keys_witness :
  post_search_hook sample_TIME_FORMAT strftime_numeric
    (delete "eday" midnight_match) (sample_matchdict None [16] ["2"])
  = post_search_hook sample_TIME_FORMAT strftime_numeric
      midnight_match (sample_matchdict None [16] ["2"]).
Proof.
  apply post_search_hook_reads_hook_keys.
  intros k Hk. apply lookup_delete_ne. intros <-.
  unfold hook_keys in Hk.
  repeat (apply elem_of_cons in Hk as [Hk|Hk]; [ discriminate Hk | ]).
  by apply elem_of_nil in Hk.
Defined.

(** ** The branch selector: the bound call in closed form *)

Lemma format_baseurl1b satno wave :
  format baseurl1b
    (<["elem" := FStr (if decide (wave = 304) then "he" else "fe")]>
       (base_formdict satno wave))
  = Ok (url1b satno wave).
Proof.
  unfold base_formdict, baseurl1b, url1b. cbn [format].
  destruct (decide (wave = 304)) as [Hw|Hw].
  all: rewrite !decide_False by done.
  all: rewrite lookup_insert_ne, lookup_insert_eq by done.
  all: rewrite lookup_insert_eq.
  all: rewrite lookup_insert_ne, lookup_insert_ne, lookup_insert_eq by done.
  all: cbn [bindR].
  all: rewrite format_field_plain, format_field_zero3.
  all: by rewrite format_field_elem.
Qed.

Lemma format_baseurl2 satno wave :
  format baseurl2 (base_formdict satno wave) = Ok (url2 satno wave).
Proof.
  unfold base_formdict, baseurl2, url2. cbn [format].
  rewrite !decide_False by done.
  rewrite lookup_insert_eq, lookup_insert_ne, lookup_insert_eq by done.
  cbn [bindR]. rewrite format_field_plain, format_field_zero3.
  reflexivity.
Qed.

Lemma select_branch_1b wave formdict :
  select_branch "1b" wave formdict
  = Ok (<["elem" := FStr (if decide (wave = 304) then "he" else "fe")]> formdict,
        baseurl1b, pattern1b).
Proof.
  unfold select_branch. simpl.
  destruct (decide (wave = 304)) as [->|Hne]; simpl.
  - by rewrite insert_insert_eq.
  - apply Z.eqb_neq in Hne. by rewrite Hne.
Qed.

(** X6.  Filling a skeleton never fails: the call a combination is bound to
    is the level-1b URL with the level-1b grammar or the level-2 URL with
    the level-2 grammar, both over the query's time range; the only errors
    are the [ValueError] of an unsupported level and, for a supported
    level, the [KeyError] of a query without a time range. *)
Theorem bound_call_closed_form matchdict satno level wave :
  bound_call matchdict (satno, level, wave)
  = if decide (level = "1b") then
      match md_Time matchdict with
      | Some timerange => Ok (mk_call (url1b satno wave) timerange pattern1b)
      | None => Raise (KeyError "Time")
      end
    else if decide (level = "2") then
      match md_Time matchdict with
      | Some timerange => Ok (mk_call (url2 satno wave) timerange pattern2)
      | None => Raise (KeyError "Time")
      end
    else Raise (ValueError ("Level " +:+ level +:+ " is not supported.")).
Proof.
  unfold bound_call.
  destruct (decide (level = "1b")) as [->|H1].
  - rewrite select_branch_1b. cbn [bindR]. rewrite format_baseurl1b. cbn [bindR].
    by destruct (md_Time matchdict).
  - destruct (decide (level = "2")) as [->|H2].
    + change (select_branch "2" wave (base_formdict satno wave))
        with (Ok (base_formdict satno wave, baseurl2, pattern2)).
      cbn [bindR]. rewrite format_baseurl2. cbn [bindR].
      by destruct (md_Time matchdict).
    + by rewrite select_branch_unsupported.
Qed.

(** ** The fan-out driver: errors, edge cases and the scraper calls *)

Lemma elem_of_combinations_inv satnos levels waves s l w :
  (s, l, w) ∈ combinations satnos levels waves → s ∈ satnos ∧ l ∈ levels ∧ w ∈ waves.
Proof.
  unfold combinations. intros H.
  apply list_elem_of_In, in_flat_map in H as (s' & Hs & H).
  apply in_flat_map in H as (l' & Hl & H).
  apply list_elem_of_In, list_elem_of_fmap in H as (w' & [= -> -> ->] & Hw).
  by rewrite <- !list_elem_of_In in *.
Qed.

Lemma combinations_nil_l levels waves : combinations [] levels waves = [].
Proof. reflexivity. Qed.

Lemma bound_call_time matchdict c call :
  bound_call matchdict c = Ok call → md_Time matchdict = Some (call_time call).
Proof.
  destruct c as [[s l] w]. rewrite bound_call_closed_form.
  repeat case_decide; destruct (md_Time matchdict); intros [= <-]; done.
Qed.

Section DriverMore.

Variable TIME_FORMAT : string.
Variable strftime : datetime → string → string.
Variable to_Angstrom : Quantity → Result Quantity.
Variable extract_files_meta : string → TimeRange → template → Result (list RawMatch).

Abbreviation search' := (search TIME_FORMAT strftime to_Angstrom extract_files_meta).
Abbreviation outcome' :=
  (combination_outcome TIME_FORMAT strftime extract_files_meta).
Abbreviation body' matchdict :=
  (λ (c : Z * string * Z) (metalist : list Record_),
     search_combination TIME_FORMAT strftime extract_files_meta
       matchdict c.1.1 c.1.2 c.2 metalist).

(** Whenever the loops are entered, they are one loop over the
    combinations of the query. *)
Lemma search_query_combinations matchdict satnos waves log :
  md_SatelliteNumber matchdict = Some satnos →
  requested_waves to_Angstrom matchdict = Ok waves →
  (satnos ≠ [] → is_Some (md_Level matchdict)) →
  search' matchdict log
  = for_each (query_combinations to_Angstrom matchdict) (body' matchdict) [] log.
Proof.
  intros Hs Hw Hl. unfold query_combinations. rewrite Hs, Hw. simpl.
  destruct (md_Level matchdict) as [levels|] eqn:El.
  - by apply search_product.
  - destruct satnos as [|s satnos]; [ | by destruct Hl as [? [=]] ].
    rewrite search_unfold, Hw. unfold bindM, liftR. by rewrite Hs.
Qed.

(** What [search] does when it does not enter the loops. *)
Lemma search_early matchdict log :
  (∃ e, search' matchdict log = (Raise e, log)) ∨
  ∃ satnos waves,
    md_SatelliteNumber matchdict = Some satnos ∧
    requested_waves to_Angstrom matchdict = Ok waves ∧
    (satnos ≠ [] → is_Some (md_Level matchdict)).
Proof.
  rewrite search_unfold.
  destruct (requested_waves to_Angstrom matchdict) as [waves|e]; [ | eauto ].
  unfold bindM at 1, liftR at 1.
  destruct (md_SatelliteNumber matchdict) as [satnos|]; simpl; [ | eauto ].
  destruct (md_Level matchdict) as [levels|] eqn:El; [ right; eauto 6 | ].
  destruct satnos as [|s satnos]; [ right; exists [], waves; by repeat split | ].
  left. exists TypeError. by rewrite for_each_cons.
Qed.

Lemma search_Ok_inv matchdict log records log' :
  search' matchdict log = (Ok records, log') →
  ∃ outs,
    mapR (outcome' matchdict) (query_combinations to_Angstrom matchdict) = Ok outs ∧
    records = concat outs.*2 ∧ log' = (log ++ outs.*1)%list.
Proof.
  intros H. destruct (search_early matchdict log) as [[e He]|(satnos & waves & Hs & Hw & Hl)].
  - rewrite He in H. discriminate.
  - rewrite (search_query_combinations _ _ _ _ Hs Hw Hl) in H.
    apply product_loop_sound in H as (outs & Houts & -> & ->). eauto.
Qed.

(** The calls of the loop are the bound calls of a prefix of its
    combinations. *)
Lemma product_loop_calls matchdict cs metalist log :
  ∃ calls,
    (for_each cs (body' matchdict) metalist log).2 = (log ++ calls)%list ∧
    Forall2 (λ c call, bound_call matchdict c = Ok call) (take (length calls) cs) calls.
Proof.
  revert metalist log. induction cs as [|c cs IH]; intros metalist log.
  - exists []. simpl. split; [ by rewrite app_nil_r | constructor ].
  - rewrite for_each_cons, search_combination_outcome, <- !surjective_pairing.
    destruct (bound_call matchdict c) as [call|e] eqn:Hb.
    + destruct (outcome' matchdict c) as [[call' recs]|e]; cbn [bindR].
      * destruct (IH (metalist ++ (call', recs).2)%list (log ++ [call])%list)
          as (calls & -> & HF).
        exists (call :: calls). split; [ by rewrite <- app_assoc | ].
        simpl. by constructor.
      * exists [call]. simpl. split; [ done | ]. rewrite take_0. repeat constructor. done.
    + exists []. simpl. split; [ by rewrite app_nil_r | constructor ].
Qed.

(** The loop stops at the first combination that fails. *)
Lemma product_loop_first_failure matchdict pre c post outs e metalist log :
  mapR (outcome' matchdict) pre = Ok outs →
  outcome' matchdict c = Raise e →
  for_each (pre ++ c :: post) (body' matchdict) metalist log
  = (Raise e,
     (log ++ outs.*1 ++ match bound_call matchdict c with
                        | Ok call => [call]
                        | Raise _ => []
                        end)%list).
Proof.
  intros Hpre Hc. rewrite for_each_app. unfold bindM.
  rewrite (product_loop_complete _ _ _ _ _ outs metalist log Hpre).
  rewrite for_each_cons, search_combination_outcome, <- !surjective_pairing, Hc.
  destruct (bound_call matchdict c) as [call|e'] eqn:Hb; cbn [bindR].
  - by rewrite <- app_assoc.
  - unfold combination_outcome in Hc. rewrite Hb in Hc. injection Hc as ->.
    by rewrite !app_nil_r.
Qed.

Lemma query_combinations_entered matchdict c :
  c ∈ query_combinations to_Angstrom matchdict →
  ∃ satnos waves,
    md_SatelliteNumber matchdict = Some satnos ∧
    requested_waves to_Angstrom matchdict = Ok waves ∧
    is_Some (md_Level matchdict).
Proof.
  destruct c as [[s l] w]. unfold query_combinations. intros H.
  apply elem_of_combinations_inv in H as (Hs & Hl & Hw).
  destruct (md_SatelliteNumber matchdict); [ | by apply elem_of_nil in Hs ].
  destruct (md_Level matchdict); [ | by apply elem_of_nil in Hl ].
  destruct (requested_waves to_Angstrom matchdict); [ | by apply elem_of_nil in Hw ].
  eauto 6.
Qed.

End DriverMore.

Lemma outcomes_scraped TIME_FORMAT strftime
    (extract_files_meta : string → TimeRange → template → Result (list RawMatch))
    matchdict cs outs :
  mapR (combination_outcome TIME_FORMAT strftime extract_files_meta matchdict) cs = Ok outs →
  Forall2 (λ i r, post_search_hook TIME_FORMAT strftime i matchdict = Ok r)
    (scraped extract_files_meta outs.*1) (concat outs.*2).
Proof.
  revert outs. induction cs as [|c cs IH]; intros outs H.
  - injection H as <-. constructor.
  - cbn [mapR] in H.
    destruct (combination_outcome _ _ _ matchdict c) as [[call recs]|e] eqn:Hc;
      cbn [bindR] in H; [ | discriminate ].
    destruct (mapR _ cs) as [outs'|e]; cbn [bindR] in H; [ | discriminate ].
    injection H as <-.
    unfold scraped. rewrite !fmap_cons. cbn [concat fst snd].
    apply Forall2_app; [ | by apply IH ].
    unfold combination_outcome in Hc. repeat step_bind Hc. injection Hc as <- <-.
    match goal with E : extract_files_meta _ _ _ = Ok _ |- _ => rewrite E end.
    by apply mapR_Forall2.
Qed.

Section DriverProperties.

Variable TIME_FORMAT : string.
Variable strftime : datetime → string → string.
Variable to_Angstrom : Quantity → Result Quantity.
Variable extract_files_meta : string → TimeRange → template → Result (list RawMatch).


(** X8.  The first combination that fails ends the query: when the
    combinations before it succeed, [search] raises that combination's
    exception, whatever its kind, returns none of the records accumulated
    so far, and has called the scraper for the earlier combinations and,
    if the failure came after branch selection, for the failing one. *)
Theorem search_first_failure matchdict pre c post outs e log :
  query_combinations to_Angstrom matchdict = (pre ++ c :: post)%list →
  mapR (combination_outcome TIME_FORMAT strftime extract_files_meta matchdict) pre = Ok outs →
  combination_outcome TIME_FORMAT strftime extract_files_meta matchdict c = Raise e →
  search TIME_FORMAT strftime to_Angstrom extract_files_meta matchdict log
  = (Raise e,
     (log ++ outs.*1 ++ match bound_call matchdict c with
                        | Ok call => [call]
                        | Raise _ => []
                        end)%list).
Proof.
  intros Hq Hpre Hc.
  destruct (query_combinations_entered to_Angstrom matchdict c)
    as (satnos & waves & Hs & Hw & Hl);
    [ rewrite Hq; apply elem_of_app; right; left | ].
  rewrite (search_query_combinations _ _ _ _ _ _ _ _ Hs Hw (λ _, Hl)), Hq.
  rewrite (product_loop_first_failure _ _ _ _ _ _ _ _ _ [] log Hpre Hc).
  reflexivity.
Qed.

(** X9.  When the combinations before the first one with an unsupported
    level succeed, [search] raises [ValueError] with the message
    [Level <level> is not supported.], after scraping exactly those earlier
    combinations. *)
Theorem search_unsupported_level_message matchdict pre satno bad wave post outs log :
  query_combinations to_Angstrom matchdict = (pre ++ (satno, bad, wave) :: post)%list →
  mapR (combination_outcome TIME_FORMAT strftime extract_files_meta matchdict) pre = Ok outs →
  bad ≠ "1b" → bad ≠ "2" →
  search TIME_FORMAT strftime to_Angstrom extract_files_meta matchdict log
  = (Raise (ValueError ("Level " +:+ bad +:+ " is not supported.")), (log ++ outs.*1)%list).
Proof.
  intros Hq Hpre H1 H2.
  assert (bound_call matchdict (satno, bad, wave)
          = Raise (ValueError ("Level " +:+ bad +:+ " is not supported."))) as Hb
    by (rewrite bound_call_closed_form; by rewrite !decide_False).
  assert (combination_outcome TIME_FORMAT strftime extract_files_meta matchdict (satno, bad, wave)
          = Raise (ValueError ("Level " +:+ bad +:+ " is not supported."))) as Hc
    by (unfold combination_outcome; by rewrite Hb).
  destruct (query_combinations_entered to_Angstrom matchdict (satno, bad, wave))
    as (satnos & waves & Hs & Hw & Hl);
    [ rewrite Hq; apply elem_of_app; right; left | ].
  rewrite (search_query_combinations _ _ _ _ _ _ _ _ Hs Hw (λ _, Hl)), Hq.
  rewrite (product_loop_first_failure _ _ _ _ _ _ _ _ _ [] log Hpre Hc).
  by rewrite Hb, app_nil_r.
Qed.

(** X10.  A query without a time range never reaches the scraper, and can
    only return the empty result. *)
Theorem search_without_time_never_scrapes matchdict log :
  md_Time matchdict = None →
  (search TIME_FORMAT strftime to_Angstrom extract_files_meta matchdict log).2 = log ∧
  ∀ records,
    (search TIME_FORMAT strftime to_Angstrom extract_files_meta matchdict log).1 = Ok records →
    records = [].
Proof.
  intros Ht.
  assert (∀ c call, bound_call matchdict c ≠ Ok call) as Hnone.
  { intros c call Hb. apply bound_call_time in Hb. congruence. }
  split.
  - destruct (search_early TIME_FORMAT strftime to_Angstrom extract_files_meta matchdict log)
      as [[e He]|(satnos & waves & Hs & Hw & Hl)]; [ by rewrite He | ].
    rewrite (search_query_combinations _ _ _ _ _ _ _ _ Hs Hw Hl).
    destruct (product_loop_calls TIME_FORMAT strftime extract_files_meta matchdict
                (query_combinations to_Angstrom matchdict) [] log) as (calls & -> & HF).
    destruct HF as [|c call ? ? Hb _]; [ by rewrite app_nil_r | by apply Hnone in Hb ].
  - intros records H.
    destruct (search TIME_FORMAT strftime to_Angstrom extract_files_meta matchdict log)
      as [r log'] eqn:E.
    simpl in H. subst r.
    apply search_Ok_inv in E as (outs & Houts & -> & _).
    destruct outs as [|[call recs] outs]; [ done | ].
    apply mapR_Forall2 in Houts. inversion Houts as [|c ? ? ? Hc _]; subst.
    apply combination_outcome_call in Hc. by apply Hnone in Hc.
Qed.

(** X11.  A query whose satellite numbers are absent, or whose levels are
    absent while some satellite number is given, raises [TypeError] before
    any scrape (once the wavelengths are computed). *)
Theorem search_absent_axis matchdict waves log :
  requested_waves to_Angstrom matchdict = Ok waves →
  md_SatelliteNumber matchdict = None ∨
  (∃ satno satnos, md_SatelliteNumber matchdict = Some (satno :: satnos) ∧
                   md_Level matchdict = None) →
  search TIME_FORMAT strftime to_Angstrom extract_files_meta matchdict log = (Raise TypeError, log).
Proof.
  intros Hw H. rewrite search_unfold, Hw. unfold bindM at 1, liftR at 1.
  destruct H as [-> | (satno & satnos & -> & Hl)]; [ done | ].
  cbn [iter]. rewrite for_each_cons. unfold bindM, liftR. by rewrite Hl.
Qed.

(** X12.  An empty list of satellite numbers, or an empty list of levels,
    gives the empty result without any scrape and without any error, even
    when the query has no time range or names no instrument. *)
Theorem search_empty_axis matchdict waves log :
  requested_waves to_Angstrom matchdict = Ok waves →
  md_SatelliteNumber matchdict = Some [] ∨
  (is_Some (md_SatelliteNumber matchdict) ∧ md_Level matchdict = Some []) →
  search TIME_FORMAT strftime to_Angstrom extract_files_meta matchdict log = (Ok [], log).
Proof.
  intros Hw H.
  assert (∃ satnos, md_SatelliteNumber matchdict = Some satnos ∧
                    (satnos ≠ [] → is_Some (md_Level matchdict)) ∧
                    query_combinations to_Angstrom matchdict = [])
    as (satnos & Hs & Hl & Hq).
  { unfold query_combinations.
    destruct H as [Hs | [[satnos Hs] Hl]]; rewrite Hs.
    - exists []. by repeat split.
    - exists satnos. rewrite Hl. repeat split; [ eauto | ].
      apply elem_of_nil_inv. intros [[s l] w] Hc.
      apply elem_of_combinations_inv in Hc as (_ & Hc & _). by apply elem_of_nil in Hc. }
  by rewrite (search_query_combinations _ _ _ _ _ _ _ _ Hs Hw Hl), Hq.
Qed.

(** X13.  When an endpoint of the requested wavelength range does not
    convert to angstrom, [search] raises the conversion's exception before
    any scrape. *)
Theorem search_conversion_failure matchdict req e log :
  md_Wavelength matchdict = Some req →
  to_Angstrom (wl_min req) = Raise e ∨
  ((∃ wmin, to_Angstrom (wl_min req) = Ok wmin) ∧ to_Angstrom (wl_max req) = Raise e) →
  search TIME_FORMAT strftime to_Angstrom extract_files_meta matchdict log = (Raise e, log).
Proof.
  intros Hreq H. rewrite search_unfold. unfold requested_waves. rewrite Hreq.
  by destruct H as [-> | [[wmin ->] ->]].
Qed.

(** X14.  When [search] returns, its records are the normalized raw
    matches of its scraper calls, one record per match and in the order
    the scraper returned them: nothing is dropped, merged or reordered. *)
Theorem search_one_record_per_match matchdict log records log' :
  search TIME_FORMAT strftime to_Angstrom extract_files_meta matchdict log = (Ok records, log') →
  ∃ calls,
    log' = (log ++ calls)%list ∧
    Forall2 (λ i r, post_search_hook TIME_FORMAT strftime i matchdict = Ok r)
      (scraped extract_files_meta calls) records ∧
    length records = length (scraped extract_files_meta calls).
Proof.
  intros H. apply search_Ok_inv in H as (outs & Houts & -> & ->).
  exists outs.*1. split; [ done | ].
  pose proof (outcomes_scraped _ _ _ _ _ _ Houts) as HF.
  split; [ exact HF | ]. symmetry. by eapply Forall2_length.
Qed.

End DriverProperties.

Lemma search_first_failure_witness :
  (search sample_TIME_FORMAT strftime_numeric sample_to_Angstrom failing_scraper
     scenario_matchdict []).1 = Raise (ListingError "503") ∧
  length (search sample_TIME_FORMAT strftime_numeric sample_to_Angstrom failing_scraper
            scenario_matchdict []).2 = 3%nat.
Proof.
  eassert (mapR (combination_outcome sample_TIME_FORMAT strftime_numeric failing_scraper
                   scenario_matchdict) [(13, "2", 195); (13, "2", 284)] = Ok _) as Hpre
    by (vm_compute; reflexivity).
  rewrite (search_first_failure sample_TIME_FORMAT strftime_numeric sample_to_Angstrom
             failing_scraper scenario_matchdict
             [(13, "2", 195); (13, "2", 284)] (15, "2", 195) [(15, "2", 284)]
             _ (ListingError "503") [] eq_refl Hpre eq_refl).
  split; reflexivity.
Defined.

Lemma search_unsupported_level_message_witness :
  (search sample_TIME_FORMAT strftime_numeric sample_to_Angstrom
     (archive_scraper scenario_archive)
     (sample_matchdict (Some (Wavelength (angstroms 195) (angstroms 284))) [13] ["2"; "3"])
     []).1
  = Raise (ValueError "Level 3 is not supported.").
Proof.
  eassert (mapR (combination_outcome sample_TIME_FORMAT strftime_numeric
                   (archive_scraper scenario_archive)
                   (sample_matchdict (Some (Wavelength (angstroms 195) (angstroms 284)))
                      [13] ["2"; "3"]))
                [(13, "2", 195); (13, "2", 284)] = Ok _) as Hpre
    by (vm_compute; reflexivity).
  rewrite (search_unsupported_level_message sample_TIME_FORMAT strftime_numeric
             sample_to_Angstrom (archive_scraper scenario_archive)
             (sample_matchdict (Some (Wavelength (angstroms 195) (angstroms 284)))
                [13] ["2"; "3"])
             [(13, "2", 195); (13, "2", 284)] 13 "3" 195 [(13, "3", 284)] _ []
             eq_refl Hpre ltac:(discriminate) ltac:(discriminate)).
  reflexivity.
Defined.

Lemma search_without_time_never_scrapes_witness :
  (search sample_TIME_FORMAT strftime_numeric sample_to_Angstrom
     (archive_scraper scenario_archive)
     {| md_Time := None; md_Wavelength := None;
        md_SatelliteNumber := Some [13; 15]; md_Level := Some ["2"];
        md_Instrument := Some ["SUVI"]; md_Physobs := Some ["flux"];
        md_Source := Some ["GOES"]; md_Provider := Some ["NOAA"] |} []).2 = [].
Proof.
  apply (search_without_time_never_scrapes sample_TIME_FORMAT strftime_numeric
           sample_to_Angstrom (archive_scraper scenario_archive)).
  reflexivity.
Defined.

Lemma search_absent_axis_witness :
  search sample_TIME_FORMAT strftime_numeric sample_to_Angstrom
    (archive_scraper scenario_archive)
    {| md_Time := Some five_days; md_Wavelength := None;
       md_SatelliteNumber := Some [16]; md_Level := None;
       md_Instrument := Some ["SUVI"]; md_Physobs := Some ["flux"];
       md_Source := Some ["GOES"]; md_Provider := Some ["NOAA"] |} []
  = (Raise TypeError, []).
Proof.
  apply (search_absent_axis sample_TIME_FORMAT strftime_numeric sample_to_Angstrom
           (archive_scraper scenario_archive) _ supported_values []).
  - reflexivity.
  - right. exists 16, []. split; reflexivity.
Defined.

Lemma search_empty_axis_witness :
  search sample_TIME_FORMAT strftime_numeric sample_to_Angstrom
    (archive_scraper scenario_archive)
    {| md_Time := None; md_Wavelength := None;
       md_SatelliteNumber := Some [16; 17]; md_Level := Some [];
       md_Instrument := None; md_Physobs := None;
       md_Source := None; md_Provider := None |} []
  = (Ok [], []).
Proof.
  apply (search_empty_axis sample_TIME_FORMAT strftime_numeric sample_to_Angstrom
           (archive_scraper scenario_archive) _ supported_values []).
  - reflexivity.
  - right. split; [ by eexists | reflexivity ].
Defined.

Lemma search_conversion_failure_witness :
  search sample_TIME_FORMAT strftime_numeric sample_to_Angstrom
    (archive_scraper scenario_archive)
    (sample_matchdict
       (Some (mk_wavelength (angstroms 94) (mk_quantity 1 (UnitNamed "kg")))) [16] ["2"]) []
  = (Raise UnitConversionError, []).
Proof.
  apply (search_conversion_failure sample_TIME_FORMAT strftime_numeric sample_to_Angstrom
           (archive_scraper scenario_archive) _
           (mk_wavelength (angstroms 94) (mk_quantity 1 (UnitNamed "kg")))).
  - reflexivity.
  - right. split; [ by eexists | reflexivity ].
Defined.

Lemma search_one_record_per_match_witness :
  ∃ calls,
    length calls = 4%nat ∧
    length (scraped (archive_scraper scenario_archive) calls) = 4%nat ∧
    Forall2 (λ i r, post_search_hook sample_TIME_FORMAT strftime_numeric i
                      scenario_matchdict = Ok r)
      (scraped (archive_scraper scenario_archive) calls)
      (concat scenario_outcomes.*2).
Proof.
  destruct (search_one_record_per_match sample_TIME_FORMAT strftime_numeric
              sample_to_Angstrom (archive_scraper scenario_archive)
              scenario_matchdict [] (concat scenario_outcomes.*2) scenario_outcomes.*1)
    as (calls & Hlog & HF & Hlen).
  - by vm_compute.
  - simpl in Hlog. subst calls. eexists. split; [ | split; [ | exact HF ] ]; by vm_compute.
Defined.

(** ** The wavelengths searched: bounds and monotonicity *)

Lemma supported_values_NoDup : NoDup supported_values.
Proof. apply (bool_decide_unpack _). by vm_compute. Qed.

Section WavesMore.

Variable to_Angstrom : Quantity → Result Quantity.

(** X15.  Whatever the query asks for, the wavelengths searched are a
    sublist of the six supported ones: never an unsupported value, never
    one twice, always in ascending order of the supported list. *)
Theorem requested_waves_sublist matchdict waves :
  requested_waves to_Angstrom matchdict = Ok waves →
  waves `sublist_of` supported_values ∧ NoDup waves.
Proof.
  intros H.
  assert (waves `sublist_of` supported_values) as Hsub.
  { destruct (md_Wavelength matchdict) as [req|] eqn:Hreq.
    - unfold requested_waves in H. rewrite Hreq in H. repeat step_bind H.
      injection H as <-.
      change supported_waves with (angstroms <$> supported_values).
      rewrite (supported_filter _ supported_values). apply sublist_filter.
    - rewrite (requested_waves_None _ _ Hreq) in H. by injection H as <-. }
  split; [ exact Hsub | ].
  exact (sublist_NoDup _ _ supported_values_NoDup Hsub).
Qed.

(** X16.  Widening the requested range never loses a wavelength: when the
    converted range of one query lies inside that of another, every
    wavelength searched for the first is searched for the second. *)
Theorem requested_waves_monotone matchdict1 matchdict2 req1 req2 lo1 hi1 lo2 hi2 :
  md_Wavelength matchdict1 = Some req1 →
  md_Wavelength matchdict2 = Some req2 →
  to_Angstrom (wl_min req1) = Ok lo1 → to_Angstrom (wl_max req1) = Ok hi1 →
  to_Angstrom (wl_min req2) = Ok lo2 → to_Angstrom (wl_max req2) = Ok hi2 →
  (q_value (wl_min (Wavelength lo2 hi2)) <= q_value (wl_min (Wavelength lo1 hi1)))%Q →
  (q_value (wl_max (Wavelength lo1 hi1)) <= q_value (wl_max (Wavelength lo2 hi2)))%Q →
  ∃ waves1 waves2,
    requested_waves to_Angstrom matchdict1 = Ok waves1 ∧
    requested_waves to_Angstrom matchdict2 = Ok waves2 ∧
    waves1 ⊆ waves2.
Proof.
  intros Hr1 Hr2 Hlo1 Hhi1 Hlo2 Hhi2 Hlo Hhi.
  eexists _, _.
  split; [ by apply (requested_waves_Some _ _ req1 lo1 hi1) | ].
  split; [ by apply (requested_waves_Some _ _ req2 lo2 hi2) | ].
  intros w. rewrite !list_elem_of_filter, !wavelength_contains_iff.
  intros [[H1 H2] Hw]. split; [ split | done ].
  - by apply (Qle_trans _ _ _ Hlo).
  - by apply (Qle_trans _ _ _ H2).
Qed.

End WavesMore.

Lemma requested_waves_sublist_witness :
  [195; 284; 304] `sublist_of` supported_values ∧ NoDup [195; 284; 304].
Proof.
  apply (requested_waves_sublist sample_to_Angstrom
           (sample_matchdict
              (Some (mk_wavelength (mk_quantity (195 # 10) (UnitNamed "nm"))
                                   (mk_quantity (304 # 10) (UnitNamed "nm"))))
              [16] ["2"])).
  by vm_compute.
Defined.

Lemma requested_waves_monotone_witness :
  ∃ waves1 waves2,
    requested_waves sample_to_Angstrom
      (sample_matchdict (Some (Wavelength (angstroms 171) (angstroms 195))) [16] ["2"])
    = Ok waves1 ∧
    requested_waves sample_to_Angstrom
      (sample_matchdict (Some (Wavelength (angstroms 100) (angstroms 300))) [16] ["2"])
    = Ok waves2 ∧
    waves1 ⊆ waves2.
Proof.
  apply (requested_waves_monotone sample_to_Angstrom _ _
           (Wavelength (angstroms 171) (angstroms 195))
           (Wavelength (angstroms 100) (angstroms 300))
           (angstroms 171) (angstroms 195) (angstroms 100) (angstroms 300));
    try reflexivity; vm_compute; discriminate.
Defined.

(** ** The attribute registries *)

Lemma SUVI_registered_levels :
  registered_values SUVIClient.register_values "Level" = ["1b"; "2"].
Proof. by vm_compute. Qed.

(** X17.  The levels [search] has a branch for are exactly the levels
    SUVIClient registers: a registered level never raises the unsupported
    level error, and an unregistered one always does. *)
Theorem registered_levels_are_the_supported_ones level wave formdict :
  (∃ branch, select_branch level wave formdict = Ok branch)
  ↔ level ∈ registered_values SUVIClient.register_values "Level".
Proof.
  rewrite SUVI_registered_levels. split.
  - intros [branch H]. unfold select_branch in H.
    repeat case_decide; subst; [ left | right; left | discriminate ].
  - intros H. apply elem_of_cons in H as [->|H]; [ rewrite select_branch_1b; eauto | ].
    apply elem_of_cons in H as [->|H]; [ by eexists | by apply elem_of_nil in H ].
Qed.

Lemma satellite_entries_values goes_number :
  (satellite_entries goes_number).*1 = str_of_int <$> goes_number.
Proof.
  unfold satellite_entries. rewrite <- list_fmap_compose. by apply list_fmap_ext.
Qed.

(** X18.  The satellite numbers a client registers are the decimal strings
    of its number list, one entry per number: distinct numbers give
    distinct registered values, a number is in the list exactly when its
    string is registered, and each description ends with the value. *)
Theorem satellite_entries_distinct goes_number :
  NoDup goes_number →
  NoDup (satellite_entries goes_number).*1 ∧
  length (satellite_entries goes_number) = length goes_number ∧
  (∀ x, x ∈ goes_number ↔ str_of_int x ∈ (satellite_entries goes_number).*1) ∧
  (∀ value description, (value, description) ∈ satellite_entries goes_number →
                        description = "GOES Satellite Number " +:+ value).
Proof.
  intros Hnd. rewrite satellite_entries_values.
  assert (Inj (=) (=) str_of_int) as Hinj
    by (intros x y H; unfold str_of_int in H; by apply (inj pretty) in H).
  split; [ by apply (NoDup_fmap_2 _) | ].
  split; [ unfold satellite_entries; by rewrite length_fmap | ].
  split.
  - intros x. by rewrite (list_elem_of_fmap_inj _).
  - intros value description H. unfold satellite_entries in H.
    apply list_elem_of_fmap in H as (x & [= -> ->] & _). reflexivity.
Qed.

Lemma satellite_entries_distinct_witness :
  NoDup (registered_values XRSClient.register_values "SatelliteNumber") ∧
  NoDup (registered_values SUVIClient.register_values "SatelliteNumber").
Proof.
  split.
  - refine (proj1 (satellite_entries_distinct [2; 5; 6; 7; 8; 9; 10; 11; 12; 13; 14; 15] _)).
    apply (bool_decide_unpack _). by vm_compute.
  - refine (proj1 (satellite_entries_distinct [16; 17] _)).
    apply (bool_decide_unpack _). by vm_compute.
Defined.

Lemma registered_levels_are_the_supported_ones_witness :
  "2" ∈ registered_values SUVIClient.register_values "Level".
Proof.
  apply (proj1 (registered_levels_are_the_supported_ones "2" 195 ∅)).
  by eexists.
Defined.

(** * The claims about what [search] scrapes *)

(** ** The branch selector inside the loop body *)

(** C5.  In the loop body, a combination of level 1b is scraped under the
    level-1b skeleton filled with the satellite number, the wavelength and
    an element code that is [he] exactly when the wavelength is 304 and
    [fe] otherwise, with the level-1b grammar; a combination of level 2 is
    scraped under the level-2 skeleton filled with the satellite number and
    the wavelength only, with the level-2 grammar.  The dictionaries and
    the URLs are spelled out. *)
Theorem C5_branch_substitution TIME_FORMAT strftime
    (extract_files_meta : string → TimeRange → template → Result (list RawMatch))
    matchdict (satno wave : Z) metalist log :
  let elem := if decide (wave = 304) then "he" else "fe" in
  let url_1b :=
    "https://data.ngdc.noaa.gov/platforms/solar-space-observing-satellites/goes/goes"
    +:+ str_of_int satno +:+ "/l1b/suvi-l1b-" +:+ elem
    +:+ format_int true (Some 3%nat) wave +:+ "/%Y/%m/%d/OR_SUVI-L1b.*\.fits.gz" in
  let url_2 :=
    "https://data.ngdc.noaa.gov/platforms/solar-space-observing-satellites/goes/goes"
    +:+ str_of_int satno +:+ "/l2/data/suvi-l2-ci" +:+ format_int true (Some 3%nat) wave
    +:+ "/%Y/%m/%d/dr_suvi-l2-ci" +:+ format_int true (Some 3%nat) wave
    +:+ "_g" +:+ str_of_int satno +:+ "_s%Y%m%dT%H%M%SZ_.*\.fits" in
  select_branch "1b" wave (base_formdict satno wave)
  = Ok (<["elem" := FStr elem]> (base_formdict satno wave), baseurl1b, pattern1b) ∧
  dom (<["elem" := FStr elem]> (base_formdict satno wave))
  = ({["SatelliteNumber"; "wave"; "elem"]} : gset string) ∧
  format baseurl1b (<["elem" := FStr elem]> (base_formdict satno wave)) = Ok url_1b ∧
  select_branch "2" wave (base_formdict satno wave)
  = Ok (base_formdict satno wave, baseurl2, pattern2) ∧
  dom (base_formdict satno wave) = ({["SatelliteNumber"; "wave"]} : gset string) ∧
  format baseurl2 (base_formdict satno wave) = Ok url_2 ∧
  search_combination TIME_FORMAT strftime extract_files_meta
    matchdict satno "1b" wave metalist log
  = match md_Time matchdict with
    | Some timerange =>
        (try filesmeta := extract_files_meta url_1b timerange pattern1b in
         normalize_all TIME_FORMAT strftime filesmeta matchdict metalist,
         (log ++ [mk_call url_1b timerange pattern1b])%list)
    | None => (Raise (KeyError "Time"), log)
    end ∧
  search_combination TIME_FORMAT strftime extract_files_meta
    matchdict satno "2" wave metalist log
  = match md_Time matchdict with
    | Some timerange =>
        (try filesmeta := extract_files_meta url_2 timerange pattern2 in
         normalize_all TIME_FORMAT strftime filesmeta matchdict metalist,
         (log ++ [mk_call url_2 timerange pattern2])%list)
    | None => (Raise (KeyError "Time"), log)
    end.
Proof.
  intros elem url_1b url_2.
  destruct (branch_substitution_reference satno wave) as (H1 & H2 & H3 & H4 & H5 & H6).
  fold elem in H1, H2, H3. fold url_1b in H3. fold url_2 in H6.
  refine (conj H1 (conj H2 (conj H3 (conj H4 (conj H5 (conj H6 (conj _ _))))))).
  - unfold search_combination, bindM, liftR, scrape.
    fold (base_formdict satno wave). rewrite H1. cbn [fst snd]. rewrite H3.
    destruct (md_Time matchdict) as [timerange|]; [ | done ].
    by destruct (extract_files_meta _ _ _).
  - unfold search_combination, bindM, liftR, scrape.
    fold (base_formdict satno wave). rewrite H4. cbn [fst snd]. rewrite H6.
    destruct (md_Time matchdict) as [timerange|]; [ | done ].
    by destruct (extract_files_meta _ _ _).
Qed.

(** ** The wavelengths [search] scrapes *)

Lemma post_search_hook_keys TIME_FORMAT strftime (i : RawMatch) matchdict r :
  post_search_hook TIME_FORMAT strftime i matchdict = Ok r → odict_keys r = record_keys.
Proof.
  intros H. apply post_search_hook_Ok in H.
  destruct H as (y & mo & d & h & mi & s & eh & emi & es & ins & ph & src & prov & H).
  destruct H as (sat & lev & w & H).
  by destruct H as (?&?&?&?&?&?&?&?&?&?&?&?&?&?&?&?& ->).
Qed.

Section ScrapedWavelengths.

Variable TIME_FORMAT : string.
Variable strftime : datetime → string → string.
Variable to_Angstrom : Quantity → Result Quantity.
Variable extract_files_meta : string → TimeRange → template → Result (list RawMatch).

(** The calls of [search] are the bound calls of an initial segment of
    the product of the axes with the list of wavelengths. *)
Lemma search_calls_within matchdict waves log :
  requested_waves to_Angstrom matchdict = Ok waves →
  ∃ calls,
    (search TIME_FORMAT strftime to_Angstrom extract_files_meta matchdict log).2
    = (log ++ calls)%list ∧
    Forall2 (λ c call, bound_call matchdict c = Ok call)
      (take (length calls)
         (combinations (default [] (md_SatelliteNumber matchdict))
            (default [] (md_Level matchdict)) waves))
      calls.
Proof.
  intros Hw.
  replace (combinations _ _ waves) with (query_combinations to_Angstrom matchdict)
    by (unfold query_combinations; by rewrite Hw).
  destruct (search_early TIME_FORMAT strftime to_Angstrom extract_files_meta matchdict log)
    as [[e He]|(satnos & waves' & Hs & Hw' & Hl)].
  - exists []. rewrite He. simpl. split; [ by rewrite app_nil_r | constructor ].
  - rewrite (search_query_combinations _ _ _ _ _ _ _ _ Hs Hw' Hl).
    apply product_loop_calls.
Qed.

(** When every combination over the list of wavelengths succeeds, [search]
    scrapes each of them once and returns their records. *)
Lemma search_over_waves matchdict satnos levels waves outs log :
  requested_waves to_Angstrom matchdict = Ok waves →
  md_SatelliteNumber matchdict = Some satnos →
  md_Level matchdict = Some levels →
  mapR (combination_outcome TIME_FORMAT strftime extract_files_meta matchdict)
    (combinations satnos levels waves) = Ok outs →
  search TIME_FORMAT strftime to_Angstrom extract_files_meta matchdict log
  = (Ok (concat outs.*2), (log ++ outs.*1)%list).
Proof.
  intros Hw Hs Hl Houts.
  rewrite (search_product _ _ _ _ _ satnos levels waves log Hs Hl Hw).
  by rewrite (product_loop_complete _ _ _ _ _ outs [] log Houts).
Qed.

(** C3.  A query without a wavelength constraint searches exactly the six
    supported wavelengths, the absence raising nothing: the scraper calls
    of [search] are always bound calls of the product of the satellite
    numbers and levels with these six wavelengths, in loop order, and when
    every such combination succeeds [search] scrapes each of them once and
    returns their records; and [search] runs as it does for the same query
    with a range that covers all six. *)
Theorem C3_no_wavelength_is_all_supported matchdict req wmin wmax log :
  md_Wavelength matchdict = None →
  to_Angstrom (wl_min req) = Ok wmin →
  to_Angstrom (wl_max req) = Ok wmax →
  (q_value wmin <= 94)%Q →
  (304 <= q_value wmax)%Q →
  requested_waves to_Angstrom matchdict = Ok [94; 131; 171; 195; 284; 304] ∧
  (∃ calls,
     (search TIME_FORMAT strftime to_Angstrom extract_files_meta matchdict log).2
     = (log ++ calls)%list ∧
     Forall2 (λ c call, bound_call matchdict c = Ok call)
       (take (length calls)
          (combinations (default [] (md_SatelliteNumber matchdict))
             (default [] (md_Level matchdict)) [94; 131; 171; 195; 284; 304]))
       calls) ∧
  (∀ satnos levels outs,
     md_SatelliteNumber matchdict = Some satnos →
     md_Level matchdict = Some levels →
     mapR (combination_outcome TIME_FORMAT strftime extract_files_meta matchdict)
       (combinations satnos levels [94; 131; 171; 195; 284; 304]) = Ok outs →
     search TIME_FORMAT strftime to_Angstrom extract_files_meta matchdict log
     = (Ok (concat outs.*2), (log ++ outs.*1)%list)) ∧
  search TIME_FORMAT strftime to_Angstrom extract_files_meta
    (with_Wavelength (Some req) matchdict) log
  = search TIME_FORMAT strftime to_Angstrom extract_files_meta matchdict log.
Proof.
  intros Hnone Hmin Hmax Hlo Hhi.
  destruct (search_no_wavelength_covering_range TIME_FORMAT strftime to_Angstrom
              extract_files_meta matchdict req wmin wmax log Hnone Hmin Hmax Hlo Hhi)
    as [Hw Heq].
  split; [ exact Hw | ]. split; [ exact (search_calls_within _ _ log Hw) | ].
  split; [ | exact Heq ].
  intros satnos levels outs Hs Hl Houts.
  exact (search_over_waves _ _ _ _ _ log Hw Hs Hl Houts).
Qed.

(** C7.  With a wavelength constraint whose endpoints convert to angstrom,
    the wavelengths searched are exactly the supported values lying in the
    inclusive range built from the converted endpoints: the scraper calls
    of [search] are always bound calls of the product of the satellite
    numbers and levels with these wavelengths, in loop order, and when
    every such combination succeeds [search] scrapes each of them once and
    returns their records; and the range given directly by the angstrom
    endpoints selects the same wavelengths and makes [search] run the same
    way. *)
Theorem C7_waves_within_converted_range matchdict req wmin wmax log :
  md_Wavelength matchdict = Some req →
  to_Angstrom (wl_min req) = Ok wmin →
  to_Angstrom (wl_max req) = Ok wmax →
  to_Angstrom wmin = Ok wmin →
  to_Angstrom wmax = Ok wmax →
  ∃ waves,
    requested_waves to_Angstrom matchdict = Ok waves ∧
    (∀ w, w ∈ waves ↔
          w ∈ supported_values ∧
          (q_value (wl_min (Wavelength wmin wmax)) <= inject_Z w)%Q ∧
          (inject_Z w <= q_value (wl_max (Wavelength wmin wmax)))%Q) ∧
    requested_waves to_Angstrom
      (with_Wavelength (Some (Wavelength wmin wmax)) matchdict) = Ok waves ∧
    (∃ calls,
       (search TIME_FORMAT strftime to_Angstrom extract_files_meta matchdict log).2
       = (log ++ calls)%list ∧
       Forall2 (λ c call, bound_call matchdict c = Ok call)
         (take (length calls)
            (combinations (default [] (md_SatelliteNumber matchdict))
               (default [] (md_Level matchdict)) waves))
         calls) ∧
    (∀ satnos levels outs,
       md_SatelliteNumber matchdict = Some satnos →
       md_Level matchdict = Some levels →
       mapR (combination_outcome TIME_FORMAT strftime extract_files_meta matchdict)
         (combinations satnos levels waves) = Ok outs →
       search TIME_FORMAT strftime to_Angstrom extract_files_meta matchdict log
       = (Ok (concat outs.*2), (log ++ outs.*1)%list)) ∧
    search TIME_FORMAT strftime to_Angstrom extract_files_meta
      (with_Wavelength (Some (Wavelength wmin wmax)) matchdict) log
    = search TIME_FORMAT strftime to_Angstrom extract_files_meta matchdict log.
Proof.
  intros Hreq Hmin Hmax Hmin' Hmax'.
  destruct (requested_waves_in_converted_range to_Angstrom matchdict req wmin wmax
              Hreq Hmin Hmax Hmin' Hmax') as (waves & Hw & Hiff & Hw').
  exists waves. split; [ exact Hw | ]. split; [ exact Hiff | ]. split; [ exact Hw' | ].
  split; [ exact (search_calls_within _ _ log Hw) | ]. split.
  - intros satnos levels outs Hs Hl Houts.
    exact (search_over_waves _ _ _ _ _ log Hw Hs Hl Houts).
  - apply search_with_Wavelength. by rewrite Hw, Hw'.
Qed.

(** ** Listing failures: what [search] does with the scraper's answer *)

(** After a scraper call that raised, the loop has raised that exception. *)
Lemma product_loop_scraper_raise matchdict cs metalist log :
  ∃ calls,
    (for_each cs
       (λ (c : Z * string * Z) (m : list Record_),
          search_combination TIME_FORMAT strftime extract_files_meta
            matchdict c.1.1 c.1.2 c.2 m) metalist log).2 = (log ++ calls)%list ∧
    ∀ call e,
      call ∈ calls →
      extract_files_meta (call_url call) (call_time call) (call_extractor call) = Raise e →
      (for_each cs
         (λ (c : Z * string * Z) (m : list Record_),
            search_combination TIME_FORMAT strftime extract_files_meta
              matchdict c.1.1 c.1.2 c.2 m) metalist log).1 = Raise e.
Proof.
  revert metalist log. induction cs as [|c cs IH]; intros metalist log.
  - exists []. split; [ simpl; by rewrite app_nil_r | ]. by intros call e ?%elem_of_nil.
  - rewrite for_each_cons, search_combination_outcome, <- !surjective_pairing.
    destruct (bound_call matchdict c) as [call|e0] eqn:Hb.
    + destruct (combination_outcome _ _ _ matchdict c) as [[call' recs]|e0] eqn:Hc;
        cbn [bindR].
      * destruct (IH (metalist ++ (call', recs).2)%list (log ++ [call])%list)
          as (calls & Hlog & Hraise).
        exists (call :: calls). split; [ by rewrite Hlog, <- app_assoc | ].
        intros call0 e [->|Hin]%elem_of_cons Hex; [ | by eapply Hraise ].
        unfold combination_outcome in Hc. rewrite Hb in Hc. cbn [bindR] in Hc.
        by rewrite Hex in Hc.
      * exists [call]. split; [ done | ].
        intros call0 e ->%list_elem_of_singleton Hex. simpl.
        unfold combination_outcome in Hc. rewrite Hb in Hc. cbn [bindR] in Hc.
        rewrite Hex in Hc. by injection Hc as ->.
    + exists []. split; [ simpl; by rewrite app_nil_r | ]. by intros call e ?%elem_of_nil.
Qed.

(** C8, as amended.  [search] neither collects nor reports listing
    failures, whatever the scraper is: an exception the scraper raises for
    a combination ends the query at once with that exception and no
    record; and when [search] returns, its result is the list of the
    ten-field records of the matches the scraper returned for its calls,
    one record per match, with nothing that indicates a failed unit, so an
    empty result does not tell a failed listing from a listing without
    matches. *)
Theorem C8_search_has_no_failure_channel matchdict log :
  ∃ calls,
    (search TIME_FORMAT strftime to_Angstrom extract_files_meta matchdict log).2
    = (log ++ calls)%list ∧
    (∀ call e,
       call ∈ calls →
       extract_files_meta (call_url call) (call_time call) (call_extractor call) = Raise e →
       (search TIME_FORMAT strftime to_Angstrom extract_files_meta matchdict log).1
       = Raise e) ∧
    (∀ records,
       (search TIME_FORMAT strftime to_Angstrom extract_files_meta matchdict log).1
       = Ok records →
       Forall2 (λ i r, post_search_hook TIME_FORMAT strftime i matchdict = Ok r)
         (scraped extract_files_meta calls) records ∧
       Forall (λ r, odict_keys r = record_keys) records).
Proof.
  assert (∃ calls,
            (search TIME_FORMAT strftime to_Angstrom extract_files_meta matchdict log).2
            = (log ++ calls)%list ∧
            ∀ call e,
              call ∈ calls →
              extract_files_meta (call_url call) (call_time call) (call_extractor call)
              = Raise e →
              (search TIME_FORMAT strftime to_Angstrom extract_files_meta matchdict log).1
              = Raise e) as (calls & Hlog & Hraise).
  { destruct (search_early TIME_FORMAT strftime to_Angstrom extract_files_meta matchdict log)
      as [[e He]|(satnos & waves & Hs & Hw & Hl)].
    - exists []. rewrite He. split; [ simpl; by rewrite app_nil_r | ].
      by intros call e' ?%elem_of_nil.
    - rewrite (search_query_combinations _ _ _ _ _ _ _ _ Hs Hw Hl).
      apply product_loop_scraper_raise. }
  exists calls. split; [ exact Hlog | ]. split; [ exact Hraise | ].
  intros records Hok.
  destruct (search TIME_FORMAT strftime to_Angstrom extract_files_meta matchdict log)
    as [result log'] eqn:E.
  simpl in Hok, Hlog. subst result log'.
  apply search_Ok_inv in E as (outs & Houts & -> & Hcalls).
  apply app_inv_head in Hcalls as ->.
  pose proof (outcomes_scraped _ _ _ _ _ _ Houts) as HF.
  split; [ exact HF | ].
  apply Forall_forall. intros r Hr.
  apply list_elem_of_In, list_elem_of_lookup in Hr as [k Hk].
  destruct (Forall2_lookup_r _ _ _ _ _ HF Hk) as (i & _ & Hi).
  by eapply post_search_hook_keys.
Qed.

End ScrapedWavelengths.

Lemma C3_no_wavelength_is_all_supported_witness :
  length (search sample_TIME_FORMAT strftime_numeric sample_to_Angstrom
            (archive_scraper scenario_archive)
            (sample_matchdict None [13; 15] ["2"]) []).2 = 12%nat ∧
  (call_url <$> (search sample_TIME_FORMAT strftime_numeric sample_to_Angstrom
                   (archive_scraper scenario_archive)
                   (sample_matchdict None [13; 15] ["2"]) []).2)
  = (λ c : Z * Z, level2_url c.1 c.2)
    <$> [ (13, 94); (13, 131); (13, 171); (13, 195); (13, 284); (13, 304);
          (15, 94); (15, 131); (15, 171); (15, 195); (15, 284); (15, 304) ] ∧
  search sample_TIME_FORMAT strftime_numeric sample_to_Angstrom
    (archive_scraper scenario_archive)
    (with_Wavelength
       (Some (mk_wavelength (angstroms 94) (mk_quantity (304 # 10) (UnitNamed "nm"))))
       (sample_matchdict None [13; 15] ["2"])) []
  = search sample_TIME_FORMAT strftime_numeric sample_to_Angstrom
      (archive_scraper scenario_archive) (sample_matchdict None [13; 15] ["2"]) [].
Proof.
  assert ((q_value (angstroms 94) <= 94)%Q) as Hlo by (vm_compute; discriminate).
  assert ((304 <= q_value (mk_quantity ((304 # 10) * 10) Angstrom))%Q) as Hhi
    by (vm_compute; discriminate).
  destruct (C3_no_wavelength_is_all_supported sample_TIME_FORMAT strftime_numeric
              sample_to_Angstrom (archive_scraper scenario_archive)
              (sample_matchdict None [13; 15] ["2"])
              (mk_wavelength (angstroms 94) (mk_quantity (304 # 10) (UnitNamed "nm")))
              (angstroms 94) (mk_quantity ((304 # 10) * 10) Angstrom) []
              eq_refl eq_refl eq_refl Hlo Hhi) as (_ & _ & Hall & Heq).
  eassert (mapR (combination_outcome sample_TIME_FORMAT strftime_numeric
                   (archive_scraper scenario_archive)
                   (sample_matchdict None [13; 15] ["2"]))
                (combinations [13; 15] ["2"] [94; 131; 171; 195; 284; 304]) = Ok _)
    as Houts by (vm_compute; reflexivity).
  rewrite (Hall [13; 15] ["2"] _ eq_refl eq_refl Houts) in Heq |- *.
  split; [ reflexivity | ]. split; [ by vm_compute | exact Heq ].
Defined.

Lemma C7_waves_within_converted_range_witness :
  ∃ waves,
    requested_waves sample_to_Angstrom
      (sample_matchdict
         (Some (mk_wavelength (mk_quantity (195 # 10) (UnitNamed "nm"))
                              (mk_quantity (304 # 10) (UnitNamed "nm"))))
         [13; 15] ["2"]) = Ok waves ∧
    waves = [195; 284; 304] ∧
    (call_url <$> (search sample_TIME_FORMAT strftime_numeric sample_to_Angstrom
                     (archive_scraper scenario_archive)
                     (sample_matchdict
                        (Some (mk_wavelength (mk_quantity (195 # 10) (UnitNamed "nm"))
                                             (mk_quantity (304 # 10) (UnitNamed "nm"))))
                        [13; 15] ["2"]) []).2)
    = (λ c : Z * Z, level2_url c.1 c.2)
      <$> [ (13, 195); (13, 284); (13, 304); (15, 195); (15, 284); (15, 304) ].
Proof.
  destruct (C7_waves_within_converted_range sample_TIME_FORMAT strftime_numeric
              sample_to_Angstrom (archive_scraper scenario_archive)
              (sample_matchdict
                 (Some (mk_wavelength (mk_quantity (195 # 10) (UnitNamed "nm"))
                                      (mk_quantity (304 # 10) (UnitNamed "nm"))))
                 [13; 15] ["2"])
              (mk_wavelength (mk_quantity (195 # 10) (UnitNamed "nm"))
                             (mk_quantity (304 # 10) (UnitNamed "nm")))
              (mk_quantity ((195 # 10) * 10) Angstrom)
              (mk_quantity ((304 # 10) * 10) Angstrom) []
              eq_refl eq_refl eq_refl eq_refl eq_refl)
    as (waves & Hw & _ & _ & _ & Hall & _).
  exists waves. split; [ exact Hw | ].
  assert (waves = [195; 284; 304]) as ->
    by (vm_compute in Hw; by injection Hw as <-).
  split; [ reflexivity | ].
  eassert (mapR (combination_outcome sample_TIME_FORMAT strftime_numeric
                   (archive_scraper scenario_archive)
                   (sample_matchdict
                      (Some (mk_wavelength (mk_quantity (195 # 10) (UnitNamed "nm"))
                                           (mk_quantity (304 # 10) (UnitNamed "nm"))))
                      [13; 15] ["2"]))
                (combinations [13; 15] ["2"] [195; 284; 304]) = Ok _)
    as Houts by (vm_compute; reflexivity).
  rewrite (Hall [13; 15] ["2"] _ eq_refl eq_refl Houts).
  by vm_compute.
Defined.

Lemma C8_search_has_no_failure_channel_witness :
  ∃ call,
    call ∈ (search sample_TIME_FORMAT strftime_numeric sample_to_Angstrom
              (scraper_raising day_units listing_two_failed entry_match)
              five_days_matchdict []).2 ∧
    scraper_raising day_units listing_two_failed entry_match
      (call_url call) (call_time call) (call_extractor call) = Raise (ListingError "2") ∧
    (search sample_TIME_FORMAT strftime_numeric sample_to_Angstrom
       (scraper_raising day_units listing_two_failed entry_match)
       five_days_matchdict []).1 = Raise (ListingError "2").
Proof.
  destruct (C8_search_has_no_failure_channel sample_TIME_FORMAT strftime_numeric
              sample_to_Angstrom (scraper_raising day_units listing_two_failed entry_match)
              five_days_matchdict []) as (calls & Hlog & Hraise & _).
  exists (mk_call (level2_url 16 195) five_days pattern2).
  assert (mk_call (level2_url 16 195) five_days pattern2 ∈ calls) as Hin.
  { simpl in Hlog. rewrite <- Hlog. vm_compute. left. }
  split; [ simpl in Hlog; by rewrite Hlog | ].
  split; [ by vm_compute | ].
  apply (Hraise _ _ Hin). by vm_compute.
Defined.
